(** * Seat status projection and seat assignment of the pretix seatmap plugin

    A shallow embedding of the core of [pretix/plugins/seatmap]:
    - [api.py]     : [SeatmapDataAPIView.get] (layout parsing, category
                     mapping, seat status projection of the data endpoint);
    - [views.py]   : [CheckoutSeatSelectionView] ([get_context_data],
                     [is_seat_taken], [post]) and [SeatSelectionView]
                     ([is_seat_taken], [post]);
    - [signals.py] : [SeatSelectionStep.get_context_data];
    and, in the part on the further code of the plugin,
    - [signals.py] : [SeatSelectionStep.is_applicable], [is_completed] and
                     [post];
    - [views.py]   : the forms of the backend, [EventMapping] and
                     [EventAssign] ([get_initial], [form_valid]).

    Python values coming out of [json.loads] are modelled by the type [json];
    the operations the code applies to them without checking their shape
    ([in], [.get], iteration, use as a dictionary key) are modelled with the
    exceptions Python raises on the wrong shape.  Database tables are finite
    maps or lists of rows; the assignment endpoints write the table of cart
    positions only, the forms of the backend the tables of mappings and of
    order positions. *)

From Stdlib Require Import ZArith Ascii String DecimalString DecimalZ.
From stdpp Require Import base option list strings gmap fin_maps.

Set Warnings "-register-all,-clear-no-such-hyp".

Open Scope string_scope.
Open Scope list_scope.
Open Scope Z_scope.

(** ** Python values and exceptions *)

(** The values [json.loads] produces.  JSON numbers are integers here;
    floating point numbers are outside the model.  The pairs of a [JObj] are
    the items of the Python [dict] in insertion order (keys pairwise
    distinct, as in every Python dictionary). *)
Inductive json :=
| JNull
| JBool (b : bool)
| JNum (n : Z)
| JStr (s : string)
| JArr (l : list json)
| JObj (items : list (string * json)).

Inductive exn_class :=
| JSONDecodeError
| AttributeError
| TypeError
| ValueError
| KeyError
| MultipleObjectsReturned.

(** An exception object: its class and [str(e)]. *)
Record exn := Exn { exn_cls : exn_class; exn_msg : string }.

(** Outcome of a computation that may raise. *)
Inductive result (A : Type) :=
| Ok (a : A)
| Raise (e : exn).
Arguments Ok {A} a.
Arguments Raise {A} e.

#[global] Instance result_ret : MRet result := fun _ a => Ok a.
#[global] Instance result_bind : MBind result := fun _ _ f m =>
  match m with
  | Ok a => f a
  | Raise e => Raise e
  end.

(** [for x in l: acc = f(acc, x)], stopping at the first exception. *)
Fixpoint foldM {A B : Type} (f : B -> A -> result B) (l : list A) (b : B)
  : result B :=
  match l with
  | [] => Ok b
  | x :: l' =>
      match f b x with
      | Ok b' => foldM f l' b'
      | Raise e => Raise e
      end
  end.

Definition py_type_name (j : json) : string :=
  match j with
  | JNull => "NoneType"
  | JBool _ => "bool"
  | JNum _ => "int"
  | JStr _ => "str"
  | JArr _ => "list"
  | JObj _ => "dict"
  end.

(** Python truthiness: [if x:]. *)
Definition truthy (j : json) : bool :=
  match j with
  | JNull => false
  | JBool b => b
  | JNum n => negb (n =? 0)
  | JStr s => negb (String.eqb s "")
  | JArr l => match l with [] => false | _ => true end
  | JObj items => match items with [] => false | _ => true end
  end.

Definition py_hashable (j : json) : bool :=
  match j with
  | JArr _ | JObj _ => false
  | _ => true
  end.

(** [a == b] on hashable values ([True == 1] and [False == 0] in Python). *)
Definition py_eq (a b : json) : bool :=
  match a, b with
  | JNull, JNull => true
  | JBool x, JBool y => Bool.eqb x y
  | JBool x, JNum n | JNum n, JBool x => n =? (if x then 1 else 0)
  | JNum n, JNum m => n =? m
  | JStr s, JStr t => String.eqb s t
  | _, _ => false
  end.

Definition attribute_error (j : json) (attr : string) : exn :=
  Exn AttributeError
      ("'" +:+ py_type_name j +:+ "' object has no attribute '" +:+ attr +:+ "'").

Definition unhashable_error (j : json) : exn :=
  Exn TypeError ("unhashable type: '" +:+ py_type_name j +:+ "'").

Definition not_iterable_error (j : json) : exn :=
  Exn TypeError ("'" +:+ py_type_name j +:+ "' object is not iterable").

Definition not_container_error (j : json) : exn :=
  Exn TypeError ("argument of type '" +:+ py_type_name j +:+ "' is not iterable").

(** Lookup in the items of a [dict] with string keys. *)
Fixpoint dict_lookup (items : list (string * json)) (k : string) : option json :=
  match items with
  | [] => None
  | (k', v) :: items' => if String.eqb k' k then Some v else dict_lookup items' k
  end.

(** [j.get(k, d)] *)
Definition py_get (j : json) (k : string) (d : json) : result json :=
  match j with
  | JObj items => Ok (default d (dict_lookup items k))
  | _ => Raise (attribute_error j "get")
  end.

Definition is_substring (needle haystack : string) : bool :=
  match String.index 0 needle haystack with
  | Some _ => true
  | None => false
  end.

(** [k in j] for a string [k]: key test on a dict, element test on a list,
    substring test on a string, [TypeError] otherwise. *)
Definition py_contains (k : string) (j : json) : result bool :=
  match j with
  | JObj items => Ok (bool_decide (is_Some (dict_lookup items k)))
  | JArr l => Ok (existsb (py_eq (JStr k)) l)
  | JStr s => Ok (is_substring k s)
  | _ => Raise (not_container_error j)
  end.

Fixpoint chars (s : string) : list json :=
  match s with
  | EmptyString => []
  | String c s' => JStr (String c EmptyString) :: chars s'
  end.

(** [for x in j]: the elements of a list, the keys of a dict, the characters
    of a string, [TypeError] otherwise. *)
Definition py_iter (j : json) : result (list json) :=
  match j with
  | JArr l => Ok l
  | JObj items => Ok (map (fun kv => JStr kv.1) items)
  | JStr s => Ok (chars s)
  | _ => Raise (not_iterable_error j)
  end.

(** A Python dictionary with arbitrary hashable keys, in insertion order. *)
Definition pydict := list (json * json).

Fixpoint py_dict_set (d : pydict) (k v : json) : pydict :=
  match d with
  | [] => [(k, v)]
  | (k', v') :: d' =>
      if py_eq k' k then (k', v) :: d' else (k', v') :: py_dict_set d' k v
  end.

Fixpoint py_dict_get (d : pydict) (k : json) : option json :=
  match d with
  | [] => None
  | (k', v) :: d' => if py_eq k' k then Some v else py_dict_get d' k
  end.

(** [d[k] = v] *)
Definition py_setitem (d : pydict) (k v : json) : result pydict :=
  if py_hashable k then Ok (py_dict_set d k v) else Raise (unhashable_error k).

(** [str(n)] and [int(s)] for integers.  [int] is Python's on every string
    [str] produces (Python also accepts surrounding blanks, a plus sign and
    underscores, which no key built by [str(p.pk)] contains). *)
Definition py_str (n : Z) : string := NilZero.string_of_int (Z.to_int n).

Definition py_int (s : string) : result Z :=
  match NilZero.int_of_string s with
  | Some d => Ok (Z.of_int d)
  | None =>
      Raise (Exn ValueError
                 ("invalid literal for int() with base 10: '" +:+ s +:+ "'"))
  end.

(** ** Records read by the status queries *)

(** A row of [SeatCategoryMapping]. *)
Record SeatCategoryMapping := {
  m_event : Z;
  m_subevent : option Z;
  m_layout_category : string;
  m_product : Z;
}.

(** A product ([Item]); [item_is_available] is what [is_available()]
    returns. *)
Record Item := { item_is_available : bool }.

(** A subevent: its id and, per overridden product, what
    [item_overrides[pk].is_available()] returns. *)
Record SubEvent := {
  subevent_id : Z;
  item_overrides : gmap Z bool;
}.

(** A seat as returned by [Seat.annotated]: the columns of the [Seat] row
    that the code reads and the three annotations. *)
Record AnnotatedSeat := {
  a_seat_guid : string;
  a_product : option Z;
  a_blocked : bool;
  has_order : bool;
  has_cart : bool;
  has_voucher : bool;
}.

Inductive status := available | unavailable | selected.

(** [cart_seats = {p.seat.seat_guid for p in cart if p.seat}]; a cart is
    given by the seat guid of each of its positions, [None] for a position
    without seat. *)
Definition cart_seats (cart : list (option string)) : gset string :=
  list_to_set (omap id cart).

(** The condition shared by the three projections:
    [seat.has_order or (seat.has_cart and seat.seat_guid not in cart_seats)
     or seat.has_voucher]. *)
Definition held (seat : AnnotatedSeat) (cs : gset string) : bool :=
  has_order seat
  || (has_cart seat && negb (bool_decide (a_seat_guid seat ∈ cs)))
  || has_voucher seat.

(** [j in d] for a dictionary [d] with string keys. *)
Definition py_in_strdict {V} (j : json) (d : gmap string V) : result bool :=
  match j with
  | JStr s => Ok (bool_decide (is_Some (d !! s)))
  | JArr _ | JObj _ => Raise (unhashable_error j)
  | _ => Ok false
  end.

(** [d.get(j)] for a dictionary [d] with string keys. *)
Definition py_strdict_get {V} (d : gmap string V) (j : json) : result (option V) :=
  match j with
  | JStr s => Ok (d !! s)
  | JArr _ | JObj _ => Raise (unhashable_error j)
  | _ => Ok None
  end.

(** ** The data endpoint: [SeatmapDataAPIView.get] (api.py) *)
Module SeatmapDataAPIView.

(** [find_seat_categories] (lines 64-86) fills the dictionary
    [seat_guid_to_layout_category] of the enclosing scope; here the
    dictionary is passed and returned.  First the body of the loop over the
    seats of a row. *)
Definition zone_seat (row_category : json) (d : pydict) (seat : json)
  : result pydict :=
  seat_guid ← py_get seat "seat_guid" JNull;
  if negb (truthy seat_guid) then Ok d
  else
    seat_category ← py_get seat "category" JNull;
    if truthy seat_category then py_setitem d seat_guid seat_category
    else if truthy row_category then py_setitem d seat_guid row_category
    else Ok d.

Definition zone_row (d : pydict) (row : json) : result pydict :=
  row_category ← py_get row "category" JNull;
  has_seats ← py_contains "seats" row;
  if (has_seats : bool) then
    seats ← py_get row "seats" (JArr []);
    l ← py_iter seats;
    foldM (zone_seat row_category) l d
  else Ok d.

Definition zone (d : pydict) (z : json) : result pydict :=
  has_rows ← py_contains "rows" z;
  if (has_rows : bool) then
    rows ← py_get z "rows" (JArr []);
    l ← py_iter rows;
    foldM zone_row l d
  else Ok d.

(** Body of the loop over the seats of a legacy flat layout. *)
Definition flat_seat (d : pydict) (seat : json) : result pydict :=
  seat_guid ← py_get seat "seat_guid" JNull;
  seat_category ← py_get seat "category" JNull;
  if truthy seat_guid && truthy seat_category
  then py_setitem d seat_guid seat_category
  else Ok d.

Definition find_seat_categories (layout_data : json) (d : pydict)
  : result pydict :=
  has_zones ← py_contains "zones" layout_data;
  if (has_zones : bool) then
    zones ← py_get layout_data "zones" (JArr []);
    l ← py_iter zones;
    foldM zone l d
  else
    has_seats ← py_contains "seats" layout_data;
    if (has_seats : bool) then
      seats ← py_get layout_data "seats" (JArr []);
      l ← py_iter seats;
      foldM flat_seat l d
    else Ok d.

(** [ORDER BY subevent_id DESC]: on PostgreSQL, which the comment at lines
    48-50 names, [NULL]s come first in descending order. *)
Definition before (a b : SeatCategoryMapping) : bool :=
  match m_subevent a, m_subevent b with
  | None, _ => true
  | Some _, None => false
  | Some x, Some y => y <=? x
  end.

Fixpoint insert_row (r : SeatCategoryMapping) (l : list SeatCategoryMapping)
  : list SeatCategoryMapping :=
  match l with
  | [] => [r]
  | r' :: l' => if before r r' then r :: r' :: l' else r' :: insert_row r l'
  end.

(** [.order_by('subevent_id').reverse()] *)
Definition order_by_subevent_id_reverse (rows : list SeatCategoryMapping)
  : list SeatCategoryMapping :=
  foldr insert_row [] rows.

(** The query set [q_mappings] of lines 46-53. *)
Definition q_mappings (table : list SeatCategoryMapping) (event : Z)
    (subevent : option SubEvent) : list SeatCategoryMapping :=
  let q := filter (fun m => m_event m = event) table in
  match subevent with
  | Some se =>
      order_by_subevent_id_reverse
        (filter (fun m => m_subevent m = Some (subevent_id se)
                          ∨ m_subevent m = None) q)
  | None => filter (fun m => m_subevent m = None) q
  end.

(** The loop of lines 55-58; the value kept per category is the
    [product_id]. *)
Definition category_mappings (table : list SeatCategoryMapping) (event : Z)
    (subevent : option SubEvent) : gmap string Z :=
  foldl (fun acc m => <[m_layout_category m := m_product m]> acc) ∅
        (q_mappings table event subevent).

(** Line 61: [json.loads(event.seating_plan.layout or '{}')]. *)
Definition load_layout (json_loads : string -> option json) (layout : string)
  : result json :=
  match json_loads (if String.eqb layout "" then "{}" else layout) with
  | Some j => Ok j
  | None => Raise (Exn JSONDecodeError "Expecting value")
  end.

(** One entry of [seats_data]; the coordinates, the radius and the display
    name are copied from the seat and left out. *)
Record seat_entry := {
  e_guid : string;
  e_category : json;
  e_category_color : string;
  e_product : option Z;
  e_status : status;
}.

Section SeatLoop.
Variable category_mappings : gmap string Z.
Variable seat_guid_to_layout_category : pydict.
Variable products_by_id : gmap Z Item.
Variable categories : gmap string string.
Variable subevent : option SubEvent.
Variable cs : gset string.

(** Lines 93-97. *)
Definition product_id (seat : AnnotatedSeat) (layout_category_name : json)
  : result (option Z) :=
  match a_product seat with
  | Some p => Ok (Some p)
  | None =>
      if truthy layout_category_name then
        mapped ← py_in_strdict layout_category_name category_mappings;
        if (mapped : bool)
        then py_strdict_get category_mappings layout_category_name
        else Ok None
      else Ok None
  end.

(** Lines 99-108. *)
Definition is_available (pid : option Z) : bool :=
  match pid ≫= (products_by_id !!.) with
  | None => false
  | Some product =>
      if item_is_available product then
        match subevent, pid with
        | Some se, Some pk =>
            match item_overrides se !! pk with
            | Some override_available => override_available
            | None => true
            end
        | _, _ => true
        end
      else false
  end.

(** Lines 110-116. *)
Definition seat_status (seat : AnnotatedSeat) (avail : bool) : status :=
  if negb avail then unavailable
  else if bool_decide (a_seat_guid seat ∈ cs) then selected
  else if held seat cs then unavailable
  else available.

(** Lines 118-122. *)
Definition category_color (layout_category_name : json) : result string :=
  if truthy layout_category_name then
    known ← py_in_strdict layout_category_name categories;
    if (known : bool)
    then c ← py_strdict_get categories layout_category_name;
         Ok (default "#CCCCCC" c)
    else Ok "#CCCCCC"
  else Ok "#CCCCCC".

(** Body of the loop of lines 90-134. *)
Definition seat_data (seat : AnnotatedSeat) : result seat_entry :=
  let layout_category_name :=
    default JNull (py_dict_get seat_guid_to_layout_category
                               (JStr (a_seat_guid seat))) in
  pid ← product_id seat layout_category_name;
  let st := seat_status seat (is_available pid) in
  color ← category_color layout_category_name;
  Ok {| e_guid := a_seat_guid seat;
        e_category := if truthy layout_category_name
                      then layout_category_name else JStr "";
        e_category_color := color;
        e_product := pid;
        e_status := st |}.
End SeatLoop.

(** What [get] reads: the event's settings and plan, the tables, the
    request's subevent and cart. *)
Record env := {
  seating_choice : bool;
  seating_plan : option string;
  event_id : Z;
  plan_categories : gmap string string;
  items : gmap Z Item;
  seats : list AnnotatedSeat;
  mappings : list SeatCategoryMapping;
  request_subevent : option SubEvent;
  cart : list (option string);
}.

(** [get]: the list [seats_data] and [seating_plan_data] of the response,
    or the exception that leaves the view. *)
Definition get (json_loads : string -> option json) (e : env)
  : result (list seat_entry * json) :=
  match seating_plan e with
  | Some layout =>
      if seating_choice e then
        let cm := category_mappings (mappings e) (event_id e) (request_subevent e) in
        seating_plan_data ← load_layout json_loads layout;
        d ← find_seat_categories seating_plan_data [];
        l ← foldM (fun acc seat =>
                     x ← seat_data cm d (items e) (plan_categories e)
                                   (request_subevent e) (cart_seats (cart e)) seat;
                     Ok (acc ++ [x]))
                  (seats e) [];
        Ok (l, seating_plan_data)
      else Ok ([], JObj [])
  | None => Ok ([], JObj [])
  end.

End SeatmapDataAPIView.

(** ** The checkout flow step: [SeatSelectionStep.get_context_data]
    (signals.py) *)
Module SeatSelectionStep.

(** Lines 120-122. *)
Definition seat_status (seat : AnnotatedSeat) (cs : gset string) : status :=
  if held seat cs then unavailable else available.

(** The [status] of every entry of [seats_data] (lines 112-149). *)
Definition statuses (seating_choice : bool) (seating_plan : option string)
    (seats : list AnnotatedSeat) (cart : list (option string))
  : list (string * status) :=
  match seating_plan with
  | Some _ =>
      if seating_choice
      then map (fun seat => (a_seat_guid seat, seat_status seat (cart_seats cart)))
               seats
      else []
  | None => []
  end.

End SeatSelectionStep.

(** ** The assignment endpoints: [is_seat_taken] and [post] (views.py) *)

Inductive order_status :=
| STATUS_PENDING
| STATUS_PAID
| STATUS_EXPIRED
| STATUS_CANCELED.

(** Rows of the tables the endpoints query.  Foreign keys to [Seat] hold the
    seat's primary key.  Time stamps are integers. *)
Record Seat := {
  seat_pk : Z;
  seat_event : Z;
  seat_guid : string;
  seat_name : string;
  seat_blocked : bool;
}.

Record OrderPosition := {
  op_seat : option Z;
  op_order_status : order_status;
}.

Record CartPosition := {
  cp_cart_id : string;
  cp_event : Z;
  cp_item_admission : bool;
  cp_seat : option Z;
  cp_expires : Z;
}.

Record Voucher := {
  v_seat : option Z;
  v_valid_until : option Z;
  v_redeemed : Z;
  v_max_usages : Z;
}.

#[global] Instance order_status_eq_dec : EqDecision order_status.
Proof. solve_decision. Defined.
#[global] Instance CartPosition_eq_dec : EqDecision CartPosition.
Proof. solve_decision. Defined.
#[global] Instance Seat_eq_dec : EqDecision Seat.
Proof. solve_decision. Defined.

(** The cart positions are keyed by their primary key. *)
Record Db := {
  db_seats : list Seat;
  db_order_positions : list OrderPosition;
  db_cart_positions : gmap Z CartPosition;
  db_vouchers : list Voucher;
}.

(** [JsonResponse(data, status=...)] *)
Record JsonResponse := {
  resp_data : list (string * string);
  resp_status : Z;
}.

(** What a view body does: it returns a response or lets an exception
    reach its [except] clauses. *)
Inductive flow (A : Type) :=
| Continue (a : A)
| Return (r : JsonResponse)
| Throw (e : exn).
Arguments Continue {A} a.
Arguments Return {A} r.
Arguments Throw {A} e.

#[global] Instance flow_bind : MBind flow := fun _ _ f m =>
  match m with
  | Continue a => f a
  | Return r => Return r
  | Throw e => Throw e
  end.

Definition lift {A} (m : result A) : flow A :=
  match m with
  | Ok a => Continue a
  | Raise e => Throw e
  end.

Definition set_seat (p : CartPosition) (seat : option Z) : CartPosition :=
  {| cp_cart_id := cp_cart_id p;
     cp_event := cp_event p;
     cp_item_admission := cp_item_admission p;
     cp_seat := seat;
     cp_expires := cp_expires p |}.

Definition error_response (message : string) (code : Z) : JsonResponse :=
  {| resp_data := [("status", "error"); ("message", message)];
     resp_status := code |}.

Definition msg_cart_changed : string :=
  "Your shopping cart has expired or has been changed in the meantime. Please go back to the cart, check your selection and try again.".
Definition msg_duplicate : string :=
  "The same seat cannot be assigned to multiple tickets.".
Definition msg_unavailable (seat_name : string) : string :=
  "Seat " +:+ seat_name +:+ " is no longer available.".
Definition msg_invalid_seat : string := "Invalid seat selected.".
Definition msg_invalid_request : string := "Invalid request.".

(** The two views carry the same [is_seat_taken] and, up to logging and the
    payload of the success response, the same [post]; they are modelled
    once. *)
Module SeatAssignment.

Definition order_holds (pk : Z) (op : OrderPosition) : bool :=
  bool_decide (op_seat op = Some pk)
  && bool_decide (op_order_status op ∈ [STATUS_PENDING; STATUS_PAID]).

Definition voucher_holds (now pk : Z) (v : Voucher) : bool :=
  bool_decide (v_seat v = Some pk)
  && (match v_valid_until v with
      | None => true
      | Some t => now <=? t
      end
      && (v_redeemed v <? v_max_usages v)).

(** [CartPosition.objects.filter(seat=seat, expires__gte=now())], then
    [.exclude(pk=exclude_cart_position_id)] when the argument is truthy. *)
Definition cpq (db : Db) (now : Z) (seat : Seat)
    (exclude_cart_position_id : option Z) : gmap Z CartPosition :=
  let q := filter (fun kp => cp_seat kp.2 = Some (seat_pk seat)
                             ∧ now ≤ cp_expires kp.2)
                  (db_cart_positions db) in
  match exclude_cart_position_id with
  | Some id => if id =? 0 then q else delete id q
  | None => q
  end.

Definition is_seat_taken (db : Db) (now : Z) (seat : Seat)
    (exclude_cart_position_id : option Z) : bool :=
  if existsb (order_holds (seat_pk seat)) (db_order_positions db) then true
  else if bool_decide (cpq db now seat exclude_cart_position_id ≠ ∅) then true
  else if existsb (voucher_holds now (seat_pk seat)) (db_vouchers db) then true
  else false.

Record request := {
  body : string;
  cart_id : string;     (* get_or_create_cart_id(request) *)
  event : Z;            (* request.event *)
}.

(** [positions]: the admission positions of the caller's cart. *)
Definition positions (db : Db) (r : request) : gmap Z CartPosition :=
  filter (fun kp => cp_cart_id kp.2 = cart_id r
                    ∧ cp_event kp.2 = event r
                    ∧ cp_item_admission kp.2 = true)
         (db_cart_positions db).

(** [position_map = {str(p.pk): p for p in positions}]; a model instance
    is its primary key with its row. *)
Definition position_map (db : Db) (r : request) : gmap string (Z * CartPosition) :=
  kmap py_str (map_imap (fun pk p => Some (pk, p)) (positions db r)).

(** [.keys()], [.values()], [.items()] of [seat_assignments]. *)
Definition py_items (j : json) (attr : string) : flow (list (string * json)) :=
  match j with
  | JObj items => Continue items
  | _ => Throw (attribute_error j attr)
  end.

(** [set(vs)], built left to right. *)
Fixpoint py_set (vs acc : list json) : result (list json) :=
  match vs with
  | [] => Ok acc
  | v :: vs' =>
      if py_hashable v
      then py_set vs' (if existsb (py_eq v) acc then acc else (acc ++ [v]))
      else Raise (unhashable_error v)
  end.

(** The value a [CharField] lookup compares the column with: strings as
    they are, [None] as an [IS NULL] test (here [None]: no row matches),
    other values through [str].  Lists and dictionaries never get here:
    [set(seat_assignments.values())] has raised on them. *)
Definition charfield_value (j : json) : option string :=
  match j with
  | JStr s => Some s
  | JNum n => Some (py_str n)
  | JBool b => Some (if b then "True" else "False")
  | _ => None
  end.

Inductive get_outcome :=
| Found (seat : Seat)
| DoesNotExist
| Multiple (n : nat).

(** [Seat.objects.get(seat_guid=guid, event=event)] *)
Definition seat_get (db : Db) (guid : json) (event : Z) : get_outcome :=
  match filter (fun s => seat_event s = event
                         ∧ charfield_value guid = Some (seat_guid s))
               (db_seats db) with
  | [] => DoesNotExist
  | [s] => Found s
  | l => Multiple (length l)
  end.

Definition multiple_objects_returned (n : nat) : exn :=
  Exn MultipleObjectsReturned
      ("get() returned more than one Seat -- it returned "
       +:+ (if (n <=? 20)%nat then py_str (Z.of_nat n) else "more than 20")
       +:+ "!").

(** [seats_to_assign[pos_id] = seat] *)
Fixpoint dict_set {V} (d : list (string * V)) (k : string) (v : V)
  : list (string * V) :=
  match d with
  | [] => [(k, v)]
  | (k', v') :: d' =>
      if String.eqb k' k then (k', v) :: d' else (k', v') :: dict_set d' k v
  end.

Section Post.
Variable json_loads : string -> option json.
(** The response of the last [return]: the two views differ in it. *)
Variable success : JsonResponse.
Variable db : Db.
(** The value of [now()]. *)
Variable now : Z.
Variable r : request.

(** Lines 202-206 (294-297). *)
Definition check_positions (keys : list string) : flow unit :=
  if forallb (fun pos_id => bool_decide (is_Some (position_map db r !! pos_id)))
             keys
  then Continue tt
  else Return (error_response msg_cart_changed 400).

(** Lines 208-210 (300-301). *)
Definition check_duplicates (values : list json) : flow unit :=
  s ← lift (py_set values []);
  if bool_decide (length values ≠ length (s : list json))
  then Return (error_response msg_duplicate 400)
  else Continue tt.

(** Lines 213-222 (305-312). *)
Fixpoint resolve_seats (items : list (string * json))
    (seats_to_assign : list (string * Seat)) : flow (list (string * Seat)) :=
  match items with
  | [] => Continue seats_to_assign
  | (pos_id, guid) :: items' =>
      match seat_get db guid (event r) with
      | DoesNotExist => Return (error_response msg_invalid_seat 404)
      | Multiple n => Throw (multiple_objects_returned n)
      | Found seat =>
          id ← lift (py_int pos_id);
          if is_seat_taken db now seat (Some id)
          then Return (error_response (msg_unavailable (seat_name seat)) 400)
          else resolve_seats items' (dict_set seats_to_assign pos_id seat)
      end
  end.

(** Everything before the first write (lines 192-222, 281-312). *)
Definition validate (data : json) : flow (list (string * Seat)) :=
  seat_assignments ← lift (py_get data "seat_assignments" (JObj []));
  keys ← py_items seat_assignments "keys";
  _ ← check_positions (map fst keys);
  values ← py_items seat_assignments "values";
  _ ← check_duplicates (map snd values);
  items ← py_items seat_assignments "items";
  resolve_seats items [].

(** The primary keys that [pk__in=position_map.keys()] selects: the keys
    read as integers. *)
Definition key_pks : list Z :=
  omap (fun kv => match py_int kv.1 with Ok z => Some z | Raise _ => None end)
       (map_to_list (position_map db r)).

(** Line 225 (316):
    [CartPosition.objects.filter(pk__in=position_map.keys()).update(seat=None)] *)
Definition clear_seats (table : gmap Z CartPosition) : gmap Z CartPosition :=
  map_imap (fun pk p =>
              Some (if bool_decide (pk ∈ key_pks) then set_seat p None else p))
           table.

(** Lines 227-230 (319-322): [pos.seat = seat; pos.save()] writes the row
    of the instance read at line 197. *)
Fixpoint save_seats (seats_to_assign : list (string * Seat))
    (table : gmap Z CartPosition) : gmap Z CartPosition * option exn :=
  match seats_to_assign with
  | [] => (table, None)
  | (pos_id, seat) :: rest =>
      match position_map db r !! pos_id with
      | Some (pk, pos) =>
          save_seats rest (<[pk := set_seat pos (Some (seat_pk seat))]> table)
      | None => (table, Some (Exn KeyError ("'" +:+ pos_id +:+ "'")))
      end
  end.

Definition with_cart_positions (table : gmap Z CartPosition) : Db :=
  {| db_seats := db_seats db;
     db_order_positions := db_order_positions db;
     db_cart_positions := table;
     db_vouchers := db_vouchers db |}.

Inductive outcome :=
| Respond (resp : JsonResponse)
| Uncaught (e : exn).

(** The [try] block. *)
Definition post_body : outcome * Db :=
  match json_loads (body r) with
  | None => (Uncaught (Exn JSONDecodeError "Expecting value"), db)
  | Some data =>
      match validate data with
      | Return resp => (Respond resp, db)
      | Throw e => (Uncaught e, db)
      | Continue seats_to_assign =>
          match save_seats seats_to_assign (clear_seats (db_cart_positions db)) with
          | (table, None) => (Respond success, with_cart_positions table)
          | (table, Some e) => (Uncaught e, with_cart_positions table)
          end
      end
  end.

(** The [except] clauses (lines 243-248, 326-330). *)
Definition handle (o : outcome) : JsonResponse :=
  match o with
  | Respond resp => resp
  | Uncaught e =>
      match exn_cls e with
      | JSONDecodeError => error_response msg_invalid_request 400
      | _ => error_response (exn_msg e) 500
      end
  end.

(** [post]: the response and the database it leaves. *)
Definition post : JsonResponse * Db :=
  (handle post_body.1, post_body.2).
End Post.

End SeatAssignment.

(** ** [CheckoutSeatSelectionView] (views.py): the checkout page
    ([get_context_data]) and the assignment endpoint ([post]) *)
Module CheckoutSeatSelectionView.

(** The [try] block of lines 66-76: decode, decode once more when the
    result is a string, and replace everything that is not a dictionary,
    and every decoding failure, by the empty dictionary.  The caller only
    gets here with a non-empty [layout].  [json_loads] is [json.loads];
    [None] stands for [json.JSONDecodeError]. *)
Definition parse_layout (json_loads : string -> option json) (layout : string)
  : json :=
  match json_loads layout with
  | None => JObj []
  | Some (JStr s) =>
      match json_loads s with
      | None => JObj []
      | Some (JObj items) => JObj items
      | Some _ => JObj []
      end
  | Some (JObj items) => JObj items
  | Some _ => JObj []
  end.

(** [layout_data = {}], then the guarded [try] block. *)
Definition layout_data (json_loads : string -> option json)
    (seating_choice : bool) (seating_plan : option string) : json :=
  match seating_plan with
  | Some layout =>
      if seating_choice && negb (String.eqb layout "")
      then parse_layout json_loads layout
      else JObj []
  | None => JObj []
  end.

(** The dictionary comprehension [guid_to_category_name] of lines 90-95:
    one entry per seat of [zones[].rows[].seats[]], from the seat's own
    [seat_guid] and [category]. *)
Definition guid_entry (d : pydict) (seat_plan : json) : result pydict :=
  k ← py_get seat_plan "seat_guid" JNull;
  v ← py_get seat_plan "category" JNull;
  py_setitem d k v.

Definition row_entries (d : pydict) (row : json) : result pydict :=
  seats ← py_get row "seats" (JArr []);
  l ← py_iter seats;
  foldM guid_entry l d.

Definition zone_entries (d : pydict) (z : json) : result pydict :=
  rows ← py_get z "rows" (JArr []);
  l ← py_iter rows;
  foldM row_entries l d.

Definition guid_to_category_name (layout_data : json) : result pydict :=
  zones ← py_get layout_data "zones" (JArr []);
  l ← py_iter zones;
  foldM zone_entries l [].

(** Lines 84-87: every mapping of the event, whatever its subevent, in the
    order the query returns the rows; a later row replaces an earlier one
    of the same category.  The value kept is the product's id. *)
Definition product_mappings (table : list SeatCategoryMapping) (event : Z)
  : gmap string Z :=
  foldl (fun acc m => <[m_layout_category m := m_product m]> acc) ∅
        (filter (fun m => m_event m = event) table).

(** Lines 96-99. *)
Definition color_entry (d : pydict) (c : json) : result pydict :=
  k ← py_get c "name" JNull;
  v ← py_get c "color" JNull;
  py_setitem d k v.

Definition category_name_to_color (layout_data : json) : result pydict :=
  cats ← py_get layout_data "categories" (JArr []);
  l ← py_iter cats;
  foldM color_entry l [].

Record seat_entry := {
  e_guid : string;
  e_product : option Z;
  e_status : status;
}.

(** Lines 105-112. *)
Definition seat_status (seat : AnnotatedSeat) (cs : gset string)
    (product : option Z) : status :=
  if held seat cs || a_blocked seat || negb (bool_decide (is_Some product))
  then unavailable else available.

(** Body of the loop of lines 101-142; the legend and the colours are left
    out. *)
Definition seat_data (pm : gmap string Z) (guid_to_category_name : pydict)
    (cs : gset string) (seat : AnnotatedSeat) : result seat_entry :=
  let category_name :=
    default JNull (py_dict_get guid_to_category_name (JStr (a_seat_guid seat))) in
  product ← py_strdict_get pm category_name;
  Ok {| e_guid := a_seat_guid seat;
        e_product := product;
        e_status := seat_status seat cs product |}.

Record env := {
  seating_choice : bool;
  seating_plan : option string;
  event_id : Z;
  seats : list AnnotatedSeat;
  mappings : list SeatCategoryMapping;
  cart : list (option string);
}.

(** [get_context_data]: [seats_data] and [layout_data], or the exception
    that leaves the view. *)
Definition get_context_data (json_loads : string -> option json) (e : env)
  : result (list seat_entry * json) :=
  let data := layout_data json_loads (seating_choice e) (seating_plan e) in
  if truthy data then
    let pm := product_mappings (mappings e) (event_id e) in
    d ← guid_to_category_name data;
    _ ← category_name_to_color data;
    l ← foldM (fun acc seat =>
                 x ← seat_data pm d (cart_seats (cart e)) seat;
                 Ok (acc ++ [x]))
              (seats e) [];
    Ok (l, data)
  else Ok ([], data).

Definition is_seat_taken := SeatAssignment.is_seat_taken.

(** [redirect_url] is what [eventreverse] computes at lines 232-240. *)
Definition post (json_loads : string -> option json) (redirect_url : string)
    (db : Db) (now : Z) (r : SeatAssignment.request) : JsonResponse * Db :=
  SeatAssignment.post json_loads
    {| resp_data := [("status", "success"); ("redirect", redirect_url)];
       resp_status := 200 |}
    db now r.
End CheckoutSeatSelectionView.

Module SeatSelectionView.
Definition is_seat_taken := SeatAssignment.is_seat_taken.

Definition post (json_loads : string -> option json)
    (db : Db) (now : Z) (r : SeatAssignment.request) : JsonResponse * Db :=
  SeatAssignment.post json_loads
    {| resp_data := [("status", "success")]; resp_status := 200 |}
    db now r.
End SeatSelectionView.

(** The two assignment endpoints. *)
Inductive endpoint :=
| checkout_seats (redirect_url : string)   (* CheckoutSeatSelectionView *)
| select_seats.                            (* SeatSelectionView *)

Definition endpoint_post (json_loads : string -> option json) (ep : endpoint)
  : Db -> Z -> SeatAssignment.request -> JsonResponse * Db :=
  match ep with
  | checkout_seats redirect_url => CheckoutSeatSelectionView.post json_loads redirect_url
  | select_seats => SeatSelectionView.post json_loads
  end.

Definition success_response (ep : endpoint) : JsonResponse :=
  match ep with
  | checkout_seats redirect_url =>
      {| resp_data := [("status", "success"); ("redirect", redirect_url)];
         resp_status := 200 |}
  | select_seats => {| resp_data := [("status", "success")]; resp_status := 200 |}
  end.

(** ** Vocabulary of the statements *)

(** A position of the caller's cart that needs a seat: the rows selected at
    lines 197-199 (287-289). *)
Definition in_callers_cart (r : SeatAssignment.request) (p : CartPosition) : Prop :=
  cp_cart_id p = SeatAssignment.cart_id r
  ∧ cp_event p = SeatAssignment.event r
  ∧ cp_item_admission p = true.

(** The four rejections of an assignment request. *)
Definition rejection (resp : JsonResponse) : Prop :=
  resp = error_response msg_cart_changed 400
  ∨ resp = error_response msg_duplicate 400
  ∨ resp = error_response msg_invalid_seat 404
  ∨ ∃ seat_name, resp = error_response (msg_unavailable seat_name) 400.

(** The three kinds of hold on the seat with primary key [pk]. *)
Definition order_hold (db : Db) (pk : Z) : Prop :=
  ∃ op, op ∈ db_order_positions db ∧ op_seat op = Some pk
        ∧ (op_order_status op = STATUS_PENDING ∨ op_order_status op = STATUS_PAID).

Definition voucher_hold (db : Db) (now pk : Z) : Prop :=
  ∃ v, v ∈ db_vouchers db ∧ v_seat v = Some pk
       ∧ (v_valid_until v = None ∨ ∃ t, v_valid_until v = Some t ∧ now ≤ t)
       ∧ v_redeemed v < v_max_usages v.

(** An unexpired cart position satisfying [other] references the seat. *)
Definition cart_hold (db : Db) (now pk : Z) (other : Z -> CartPosition -> Prop) : Prop :=
  ∃ k p, db_cart_positions db !! k = Some p ∧ cp_seat p = Some pk
         ∧ now ≤ cp_expires p ∧ other k p.

(** The "taken" predicate as the specification words it: blocked, or held by
    an order, or by a live voucher, or by an unexpired cart position of a
    cart other than the requester's. *)
Definition spec_taken (db : Db) (now : Z) (seat : Seat) (requester_cart : string) : Prop :=
  seat_blocked seat = true
  ∨ order_hold db (seat_pk seat)
  ∨ voucher_hold db now (seat_pk seat)
  ∨ cart_hold db now (seat_pk seat) (fun _ p => cp_cart_id p ≠ requester_cart).


(** The pairs [resolve_seats] accepts: same key, the seat found for the guid,
    and that seat not taken for the position. *)
Definition accepted (db : Db) (now : Z) (r : SeatAssignment.request)
    (kg : string * json) (ks : string * Seat) : Prop :=
  kg.1 = ks.1
  ∧ SeatAssignment.seat_get db kg.2 (SeatAssignment.event r) = SeatAssignment.Found ks.2
  ∧ ∃ id, py_int kg.1 = Ok id
          ∧ SeatAssignment.is_seat_taken db now ks.2 (Some id) = false.

(** The cart positions that [cpq] keeps: all but the one whose primary key
    is the truthy [exclude_cart_position_id]. *)
Definition not_excluded (exclude_cart_position_id : option Z) (k : Z) : Prop :=
  ∀ id, exclude_cart_position_id = Some id → id ≠ 0 → k ≠ id.





(** A general and a subevent-specific mapping of category [c]. *)
Definition general_mapping (table : list SeatCategoryMapping) (event : Z)
    (c : string) (m : SeatCategoryMapping) : Prop :=
  m ∈ table ∧ m_event m = event ∧ m_layout_category m = c ∧ m_subevent m = None.


(** A well-shaped layout: seats with a guid and an optional category, in
    rows with an optional category, in zones. *)
Record seat_node := { sn_guid : string; sn_category : option string }.
Record row_node := { rn_category : option string; rn_seats : list seat_node }.

Definition opt_field (k : string) (v : option string) : list (string * json) :=
  match v with
  | Some c => [(k, JStr c)]
  | None => []
  end.

Definition json_of_seat (s : seat_node) : json :=
  JObj (("seat_guid", JStr (sn_guid s)) :: opt_field "category" (sn_category s)).

Definition json_of_row (r : row_node) : json :=
  JObj (opt_field "category" (rn_category r)
        ++ [("seats", JArr (map json_of_seat (rn_seats r)))]).

Definition json_of_zone (rows : list row_node) : json :=
  JObj [("rows", JArr (map json_of_row rows))].

Definition zoned_layout (zones : list (list row_node)) : json :=
  JObj [("zones", JArr (map json_of_zone zones))].

Definition legacy_layout (seats : list seat_node) : json :=
  JObj [("seats", JArr (map json_of_seat seats))].

(** "Present" in the specification: given and not empty. *)
Definition present (c : option string) : option string :=
  match c with
  | Some s => if String.eqb s "" then None else Some s
  | None => None
  end.

(** The entry the specification gives a seat: none without a guid, else its
    own category if present, else the fallback if present. *)
Definition spec_entry (fallback : option string) (d : pydict) (s : seat_node) : pydict :=
  if String.eqb (sn_guid s) "" then d
  else match present (sn_category s), present fallback with
       | Some c, _ | None, Some c => py_dict_set d (JStr (sn_guid s)) (JStr c)
       | None, None => d
       end.

Definition spec_zoned (zones : list (list row_node)) (d : pydict) : pydict :=
  foldl (fun d rows =>
           foldl (fun d r => foldl (spec_entry (rn_category r)) d (rn_seats r)) d rows)
        d zones.

Definition spec_legacy (seats : list seat_node) (d : pydict) : pydict :=
  foldl (spec_entry None) d seats.

(** The entry the checkout page makes for a seat: its own category, [None]
    when it has none. *)
Definition own_entry (d : pydict) (s : seat_node) : pydict :=
  py_dict_set d (JStr (sn_guid s)) (default JNull (JStr <$> sn_category s)).

(** ** Sample data *)

(** JSON texts contain double quotes: [dq] is that character. *)
Definition dq : string := String "034"%char EmptyString.
Definition quoted (s : string) : string := dq +:+ s +:+ dq.

(** The JSON string literal for [s]: quotes and backslashes escaped. *)
Fixpoint escape (s : string) : string :=
  match s with
  | EmptyString => EmptyString
  | String c s' =>
      if Ascii.eqb c "034"%char then String "\"%char (String c (escape s'))
      else if Ascii.eqb c "\"%char then String "\"%char (String c (escape s'))
      else String c (escape s')
  end.
Definition json_string_literal (s : string) : string := dq +:+ escape s +:+ dq.

(** [{"seat_assignments": {"2": "S2"}}] *)
Definition text_assign_2_S2 : string :=
  "{" +:+ quoted "seat_assignments" +:+ ": {" +:+ quoted "2" +:+ ": "
  +:+ quoted "S2" +:+ "}}".
(** [{"seat_assignments": {"2": "S1"}}] *)
Definition text_assign_2_S1 : string :=
  "{" +:+ quoted "seat_assignments" +:+ ": {" +:+ quoted "2" +:+ ": "
  +:+ quoted "S1" +:+ "}}".
(** [{"seat_assignments": {"1": "S1", "2": "S1"}}] *)
Definition text_assign_duplicate : string :=
  "{" +:+ quoted "seat_assignments" +:+ ": {" +:+ quoted "1" +:+ ": "
  +:+ quoted "S1" +:+ ", " +:+ quoted "2" +:+ ": " +:+ quoted "S1" +:+ "}}".
(** [{"seat_assignments": {"3": "S1"}}] *)
Definition text_assign_3_S1 : string :=
  "{" +:+ quoted "seat_assignments" +:+ ": {" +:+ quoted "3" +:+ ": "
  +:+ quoted "S1" +:+ "}}".
(** [{"seat_assignments": {"2": "S9"}}] *)
Definition text_assign_2_S9 : string :=
  "{" +:+ quoted "seat_assignments" +:+ ": {" +:+ quoted "2" +:+ ": "
  +:+ quoted "S9" +:+ "}}".
(** [{"seat_assignments": []}] *)
Definition text_assign_list : string :=
  "{" +:+ quoted "seat_assignments" +:+ ": []}".
(** [{"categories": [{"name": "VIP", "color": "#ff0000"}],
      "zones": [{"rows": [{"seats": [{"seat_guid": "S1", "category": "VIP"}]}]}]}] *)
Definition text_layout : string :=
  "{" +:+ quoted "categories" +:+ ": [{" +:+ quoted "name" +:+ ": " +:+ quoted "VIP"
  +:+ ", " +:+ quoted "color" +:+ ": " +:+ quoted "#ff0000" +:+ "}], "
  +:+ quoted "zones" +:+ ": [{" +:+ quoted "rows" +:+ ": [{"
  +:+ quoted "seats" +:+ ": [{" +:+ quoted "seat_guid" +:+ ": " +:+ quoted "S1"
  +:+ ", " +:+ quoted "category" +:+ ": " +:+ quoted "VIP" +:+ "}]}]}]}".

Definition sample_layout : json :=
  JObj [("categories", JArr [JObj [("name", JStr "VIP"); ("color", JStr "#ff0000")]]);
        ("zones", JArr [JObj [("rows", JArr [JObj [("seats", JArr
          [JObj [("seat_guid", JStr "S1"); ("category", JStr "VIP")]])]])]])].

(** [json.loads] on the texts used below; every other text stands for one
    that does not decode. *)
Definition sample_texts : list (string * json) :=
  [ ("{}", JObj []);
    ("[]", JArr []);
    (text_assign_2_S2, JObj [("seat_assignments", JObj [("2", JStr "S2")])]);
    (text_assign_2_S1, JObj [("seat_assignments", JObj [("2", JStr "S1")])]);
    (text_assign_duplicate,
       JObj [("seat_assignments", JObj [("1", JStr "S1"); ("2", JStr "S1")])]);
    (text_assign_3_S1, JObj [("seat_assignments", JObj [("3", JStr "S1")])]);
    (text_assign_2_S9, JObj [("seat_assignments", JObj [("2", JStr "S9")])]);
    (text_assign_list, JObj [("seat_assignments", JArr [])]);
    (text_layout, sample_layout);
    (json_string_literal text_layout, JStr text_layout) ].

Definition sample_loads (s : string) : option json := dict_lookup sample_texts s.

(** Event 1 with seats S1 (free of orders and vouchers) and S2 (blocked);
    cart A holds S1 through position 1 and has a second admission position 2;
    cart B has position 3. *)
Definition seat_S1 : Seat :=
  {| seat_pk := 10; seat_event := 1; seat_guid := "S1";
     seat_name := "Row 1, Seat 1"; seat_blocked := false |}.
Definition seat_S2 : Seat :=
  {| seat_pk := 11; seat_event := 1; seat_guid := "S2";
     seat_name := "Row 1, Seat 2"; seat_blocked := true |}.

Definition sample_position (cart : string) (seat : option Z) : CartPosition :=
  {| cp_cart_id := cart; cp_event := 1; cp_item_admission := true;
     cp_seat := seat; cp_expires := 100 |}.

Definition sample_db : Db :=
  {| db_seats := [seat_S1; seat_S2];
     db_order_positions := [];
     db_cart_positions :=
       {[ 1 := sample_position "A" (Some 10);
          2 := sample_position "A" None;
          3 := sample_position "B" None ]};
     db_vouchers := [] |}.

(** A request of cart A at time 50. *)
Definition sample_request (text : string) : SeatAssignment.request :=
  {| SeatAssignment.body := text;
     SeatAssignment.cart_id := "A";
     SeatAssignment.event := 1 |}.

(** Zone A, row 1 with row category Standard: seat S1 of category VIP and
    seat S2 without a category of its own (scenario A of the
    specification). *)
Definition scenario_layout : json :=
  JObj [("zones", JArr [JObj [("name", JStr "A"); ("rows", JArr [JObj
    [("category", JStr "Standard");
     ("seats", JArr [JObj [("seat_guid", JStr "S1"); ("category", JStr "VIP")];
                     JObj [("seat_guid", JStr "S2")]])]])]])].

(** A legacy flat layout with one seat. *)
Definition flat_layout : json :=
  JObj [("seats", JArr [JObj [("seat_guid", JStr "S3"); ("category", JStr "VIP")]])].

(** The mappings of scenario A for event 1: VIP to product 1, Standard to
    product 2, and Standard to product 3 for subevent 5. *)
Definition scenario_mappings : list SeatCategoryMapping :=
  [ {| m_event := 1; m_subevent := None; m_layout_category := "VIP"; m_product := 1 |};
    {| m_event := 1; m_subevent := None; m_layout_category := "Standard"; m_product := 2 |};
    {| m_event := 1; m_subevent := Some 5; m_layout_category := "Standard"; m_product := 3 |} ].

(** A category mapped for subevent 5 only. *)
Definition specific_only : list SeatCategoryMapping :=
  [ {| m_event := 1; m_subevent := Some 5; m_layout_category := "Balcony"; m_product := 4 |} ].

Definition subevent_5 : SubEvent := {| subevent_id := 5; item_overrides := ∅ |}.
Definition subevent_6 : SubEvent := {| subevent_id := 6; item_overrides := ∅ |}.

(** Seat S1 as the status queries see it when it is blocked, bound to the
    available product 1, and held by nobody.  In [api_env] the colour of
    category VIP is the one lines 27-29 of api.py compute from its name. *)
Definition blocked_seat : AnnotatedSeat :=
  {| a_seat_guid := "S1"; a_product := Some 1; a_blocked := true;
     has_order := false; has_cart := false; has_voucher := false |}.

Definition api_env (layout : string) : SeatmapDataAPIView.env :=
  {| SeatmapDataAPIView.seating_choice := true;
     SeatmapDataAPIView.seating_plan := Some layout;
     SeatmapDataAPIView.event_id := 1;
     SeatmapDataAPIView.plan_categories := {[ "VIP" := "#944b88" ]};
     SeatmapDataAPIView.items := {[ 1 := {| item_is_available := true |} ]};
     SeatmapDataAPIView.seats := [blocked_seat];
     SeatmapDataAPIView.mappings := scenario_mappings;
     SeatmapDataAPIView.request_subevent := None;
     SeatmapDataAPIView.cart := [] |}.

Definition page_env (layout : string) : CheckoutSeatSelectionView.env :=
  {| CheckoutSeatSelectionView.seating_choice := true;
     CheckoutSeatSelectionView.seating_plan := Some layout;
     CheckoutSeatSelectionView.event_id := 1;
     CheckoutSeatSelectionView.seats := [blocked_seat];
     CheckoutSeatSelectionView.mappings := scenario_mappings;
     CheckoutSeatSelectionView.cart := [] |}.

(** * Further code of the plugin *)

(** ** Python strings *)

(** [c.isspace()] on the ASCII characters: tab to carriage return, the four
    separators 28 to 31, and the blank.  Texts are ASCII here; Python also
    strips the white space beyond it. *)
Definition is_space (c : ascii) : bool :=
  let n := nat_of_ascii c in
  ((9 <=? n)%nat && (n <=? 13)%nat) || ((28 <=? n)%nat && (n <=? 32)%nat).

Fixpoint lstrip (s : string) : string :=
  match s with
  | EmptyString => EmptyString
  | String c s' => if is_space c then lstrip s' else s
  end.

Fixpoint rstrip (s : string) : string :=
  match s with
  | EmptyString => EmptyString
  | String c s' =>
      match rstrip s' with
      | EmptyString => if is_space c then EmptyString else String c EmptyString
      | r => String c r
      end
  end.

(** [s.strip()] *)
Definition strip (s : string) : string := rstrip (lstrip s).

(** [s.split(sep)] for a separator of one character. *)
Fixpoint split_char (sep : ascii) (s : string) : list string :=
  match s with
  | EmptyString => [EmptyString]
  | String c s' =>
      if Ascii.eqb c sep then EmptyString :: split_char sep s'
      else match split_char sep s' with
           | [] => [String c EmptyString]
           | w :: ws => String c w :: ws
           end
  end.

(** [sep.join(l)] *)
Fixpoint join (sep : string) (l : list string) : string :=
  match l with
  | [] => EmptyString
  | [x] => x
  | x :: l' => x +:+ sep +:+ join sep l'
  end.


Definition newline : ascii := "010"%char.
Definition comma : ascii := ","%char.

(** ** The checkout flow step: [SeatSelectionStep.is_applicable],
    [is_completed] and [post] (signals.py 175-196) *)
Module SeatSelectionStepFlow.

(** [any(p.item.admission and not p.seat for p in cart)] *)
Definition needs_seat (cart : list CartPosition) : bool :=
  existsb (fun p => cp_item_admission p && negb (bool_decide (is_Some (cp_seat p))))
          cart.

(** [cart] is what [get_cart(request)] returns, [None] included. *)
Definition is_applicable (cart : option (list CartPosition)) (seating_choice : bool)
    (seating_plan : option string) : bool :=
  match cart with
  | None => false
  | Some c =>
      seating_choice && bool_decide (is_Some seating_plan) && needs_seat c
  end.

Definition is_completed (cart : option (list CartPosition)) : bool :=
  match cart with
  | None => true
  | Some c => negb (needs_seat c)
  end.

(** Where [post] redirects to, with the error message it leaves. *)
Inductive redirect :=
| next_url
| step_url (message : string).

Definition post (cart : option (list CartPosition)) : redirect :=
  if is_completed cart then next_url
  else step_url "You need to select seats for all your tickets.".

End SeatSelectionStepFlow.

(** ** The mapping form: [EventMapping.get_initial] and [form_valid]
    (views.py 465-511) *)
Module EventMapping.

(** [f"cat-{cat.name}"] *)
Definition field_name (cat : string) : string := "cat-" +:+ cat.

(** [SeatCategoryMapping.objects.filter(event=event,
    layout_category=cat.name).first()], the table being in query order. *)
Definition first_mapping (table : list SeatCategoryMapping) (event : Z)
    (cat : string) : option SeatCategoryMapping :=
  head (filter (fun m => m_event m = event ∧ m_layout_category m = cat) table).

(** [get_initial]: [plan_categories] are the names of
    [get_seating_plan().get_categories()], [None] without a plan. *)
Definition get_initial (table : list SeatCategoryMapping) (event : Z)
    (plan_categories : option (list string)) : gmap string Z :=
  match plan_categories with
  | None => ∅
  | Some cats =>
      foldl (fun initial cat =>
               match first_mapping table event cat with
               | Some m => <[field_name cat := m_product m]> initial
               | None => initial
               end)
            ∅ cats
  end.

(** One round of the loop of lines 499-507.  [cleaned_data] holds the value
    of every field; [items] is the table of products by id.  [None] stands
    for an exception that leaves the view: a missing field, a value that is
    not a number, or a mapping created without product.  The choice field of
    [get_form] admits the empty value, [str(i.id)] for the products of the
    event, and the text [None]. *)
Definition create_mapping (items : gmap Z Item) (event : Z)
    (cleaned_data : gmap string string) (table : list SeatCategoryMapping)
    (cat : string) : option (list SeatCategoryMapping) :=
  match cleaned_data !! field_name cat with
  | None => None
  | Some v =>
      if String.eqb v "" then Some table
      else match py_int v with
           | Raise _ => None
           | Ok id =>
               match items !! id with
               | None => None
               | Some _ =>
                   Some (table ++ [ {| m_event := event; m_subevent := None;
                                       m_layout_category := cat; m_product := id |} ])
               end
           end
  end.

Fixpoint create_mappings (items : gmap Z Item) (event : Z)
    (cleaned_data : gmap string string) (cats : list string)
    (table : list SeatCategoryMapping) : option (list SeatCategoryMapping) :=
  match cats with
  | [] => Some table
  | cat :: cats' =>
      match create_mapping items event cleaned_data table cat with
      | Some table' => create_mappings items event cleaned_data cats' table'
      | None => None
      end
  end.

(** [form_valid]: the table of mappings it leaves. *)
Definition form_valid (items : gmap Z Item) (event : Z)
    (plan_categories : option (list string)) (cleaned_data : gmap string string)
    (table : list SeatCategoryMapping) : option (list SeatCategoryMapping) :=
  let table := filter (fun m => m_event m ≠ event) table in
  match plan_categories with
  | None => Some table
  | Some cats => create_mappings items event cleaned_data cats table
  end.

End EventMapping.

(** ** The assignment form: [EventAssign.get_initial] and [form_valid]
    (views.py 558-619) *)

(** The columns of an order position that the form reads; [opr_event] is
    [order__event]. *)
Record OrderPositionRow := {
  opr_pk : Z;
  opr_event : Z;
  opr_secret : string;
  opr_seat : option Z;
}.

#[global] Instance OrderPositionRow_eq_dec : EqDecision OrderPositionRow.
Proof. solve_decision. Defined.

Module EventAssign.

Definition header : string := "seat_guid,orderposition_secret".

Definition with_seat (o : OrderPositionRow) (seat : option Z) : OrderPositionRow :=
  {| opr_pk := opr_pk o; opr_event := opr_event o;
     opr_secret := opr_secret o; opr_seat := seat |}.

(** What [form_valid] does: a success or an error message with the table of
    order positions it leaves, or an exception that leaves the view. *)
Inductive outcome :=
| valid (message : string) (rows : list OrderPositionRow)
| invalid (message : string) (rows : list OrderPositionRow)
| raised.

(** [pos.seat]: the seat the foreign key points to. *)
Definition seat_of (seats : list Seat) (pk : Z) : option Seat :=
  head (filter (fun s => seat_pk s = pk) seats).

(** One line of the initial data: [pos.seat.seat_guid + "," + pos.secret];
    [None] when the position has no seat row to read. *)
Definition line_of (seats : list Seat) (pos : OrderPositionRow) : option string :=
  s ← opr_seat pos ≫= seat_of seats;
  Some (seat_guid s +:+ "," +:+ opr_secret pos).

(** [get_initial]: [Some None] when no position of the event has a seat,
    [None] when reading a seat raises. *)
Definition get_initial (seats : list Seat) (rows : list OrderPositionRow)
    (event : Z) : option (option string) :=
  let with_seats :=
    filter (fun o => opr_event o = event ∧ is_Some (opr_seat o)) rows in
  match with_seats with
  | [] => Some None
  | _ =>
      lines ← mapM (line_of seats) with_seats;
      Some (Some (header +:+ String newline EmptyString
                  +:+ join (String newline EmptyString) lines))
  end.

(** [OrderPosition.objects.filter(order__event=event).update(seat=None)] *)
Definition clear_event (event : Z) (rows : list OrderPositionRow)
  : list OrderPositionRow :=
  map (fun o => if bool_decide (opr_event o = event) then with_seat o None else o) rows.

(** [order.save()]: the row with the instance's primary key becomes the
    instance. *)
Definition save (o : OrderPositionRow) (rows : list OrderPositionRow)
  : list OrderPositionRow :=
  map (fun o' => if bool_decide (opr_pk o' = opr_pk o) then o else o') rows.

(** One round of the loop of lines 599-615: [inl] is the table after the
    line, [inr] the outcome that ends the loop.  The tables are in the order
    in which [.first()] reads them; the seat is looked up by guid alone, the
    position by secret alone. *)
Definition assign_line (seats : list Seat) (rows : list OrderPositionRow)
    (line : string) : list OrderPositionRow + outcome :=
  match map strip (split_char comma line) with
  | [guid; orderposition_secret] =>
      let order := head (filter (fun o => opr_secret o = orderposition_secret) rows) in
      let seat := head (filter (fun s => seat_guid s = guid) seats) in
      match order, seat with
      | None, _ =>
          inr (invalid ("Unable to match order (" +:+ orderposition_secret +:+ ").") rows)
      | Some _, None =>
          inr (invalid ("Unable to match seat (" +:+ guid +:+ ").") rows)
      | Some o, Some s => inl (save (with_seat o (Some (seat_pk s))) rows)
      end
  | _ => inr raised
  end.

Fixpoint assign_lines (seats : list Seat) (lines : list string)
    (rows : list OrderPositionRow) : outcome :=
  match lines with
  | [] => valid "Your changes have been saved." rows
  | line :: lines' =>
      match assign_line seats rows line with
      | inl rows' => assign_lines seats lines' rows'
      | inr o => o
      end
  end.

(** [form_valid]; [has_plan] is [event.seating_plan], [data] is
    [form.cleaned_data["data"]]. *)
Definition form_valid (has_plan : bool) (event : Z) (seats : list Seat)
    (data : string) (rows : list OrderPositionRow) : outcome :=
  if negb has_plan then invalid "No seating plan" rows
  else
    let lines := map strip (split_char newline data) in
    if (length lines <=? 1)%nat
    then valid "Removed all seat assignments." (clear_event event rows)
    else if negb (String.prefix header (default "" (head lines)))
    then invalid "The CSV input format is invalid. Please check if you have included the headers." rows
    else assign_lines seats (tail lines) rows.

End EventAssign.

(** ** Vocabulary of the further properties *)

(** The guids of a batch are JSON strings. *)
Definition string_guids (items : list (string * json)) : Prop :=
  Forall (fun kg => ∃ g, kg.2 = JStr g) items.

(** The primary key of [Seat] identifies the row. *)
Definition seat_pk_unique (db : Db) : Prop :=
  ∀ s s', s ∈ db_seats db → s' ∈ db_seats db → seat_pk s = seat_pk s' → s = s'.

(** The seat with primary key [seat] is held by cart position [pk] and by
    nothing else: no pending or paid order, no live voucher, no other
    unexpired cart position. *)
Definition held_by_only (db : Db) (now : Z) (pk seat : Z) : Prop :=
  (∃ p, db_cart_positions db !! pk = Some p ∧ cp_seat p = Some seat)
  ∧ ¬ order_hold db seat
  ∧ ¬ voucher_hold db now seat
  ∧ ∀ k q, db_cart_positions db !! k = Some q → cp_seat q = Some seat →
           now ≤ cp_expires q → k = pk.

(** The table of cart positions that the two writes of the transaction
    leave: the update of line 225/316, then the loop of [save()] calls. *)
Definition committed (db : Db) (r : SeatAssignment.request)
    (sta : list (string * Seat)) : gmap Z CartPosition :=
  (SeatAssignment.save_seats db r sta
     (SeatAssignment.clear_seats db r (db_cart_positions db))).1.

(** The mapping that [EventMapping.form_valid] creates for a category: none
    for the empty choice. *)
Definition chosen_mapping (event : Z) (cleaned_data : gmap string string)
    (cat : string) : option SeatCategoryMapping :=
  match cleaned_data !! EventMapping.field_name cat with
  | Some v =>
      if String.eqb v "" then None
      else match py_int v with
           | Ok id => Some {| m_event := event; m_subevent := None;
                              m_layout_category := cat; m_product := id |}
           | Raise _ => None
           end
  | None => None
  end.


(** Every value of the dictionary is hashable: a category name read from a
    layout is a string, a number, a boolean or [None], not a list or a
    dictionary. *)
Definition hashable_values (d : pydict) : Prop :=
  Forall (fun kv => py_hashable kv.2 = true) d.


(** What the checkout page says about one seat, [d] being the dictionary
    [guid_to_category_name]: the product is the one mapped to the seat's
    category, and [available] needs a product, no hold and no block. *)
Definition page_entry_of (e : CheckoutSeatSelectionView.env) (d : pydict)
    (seat : AnnotatedSeat) (x : CheckoutSeatSelectionView.seat_entry) : Prop :=
  CheckoutSeatSelectionView.e_guid x = a_seat_guid seat
  ∧ CheckoutSeatSelectionView.e_product x
    = match py_dict_get d (JStr (a_seat_guid seat)) with
      | Some (JStr c) =>
          CheckoutSeatSelectionView.product_mappings
            (CheckoutSeatSelectionView.mappings e)
            (CheckoutSeatSelectionView.event_id e) !! c
      | _ => None
      end
  ∧ (CheckoutSeatSelectionView.e_status x = available
     ↔ held seat (cart_seats (CheckoutSeatSelectionView.cart e)) = false
       ∧ a_blocked seat = false
       ∧ is_Some (CheckoutSeatSelectionView.e_product x))
  ∧ CheckoutSeatSelectionView.e_status x ≠ selected.

(** ** Further sample data *)

(** Cart A with the single admission position 2, cart B with position 3. *)
Definition small_db : Db :=
  {| db_seats := [seat_S1; seat_S2];
     db_order_positions := [];
     db_cart_positions :=
       {[ 2 := sample_position "A" None;
          3 := sample_position "B" None ]};
     db_vouchers := [] |}.

(** Products 1 and 2; the mapping form filled in with product 2 for VIP and
    the empty choice for Standard. *)
Definition sample_items : gmap Z Item :=
  {[ 1 := {| item_is_available := true |}; 2 := {| item_is_available := true |} ]}.
Definition sample_cleaned_data : gmap string string :=
  {[ "cat-VIP" := "2"; "cat-Standard" := "" ]}.




(** * Properties *)

Import SeatAssignment.

(** ** Integers as dictionary keys *)

Lemma int_of_string_of_int (d : Decimal.int) :
  Z.of_int <$> NilZero.int_of_string (NilZero.string_of_int d) = Some (Z.of_int d).
Proof.
  destruct d as [u|u]; destruct u;
    first [ reflexivity | by rewrite NilZero.isi ].
Qed.

(** [int(str(n)) == n] *)
Lemma py_int_str (n : Z) : py_int (py_str n) = Ok n.
Proof.
  unfold py_int, py_str.
  pose proof (int_of_string_of_int (Z.to_int n)) as H.
  destruct (NilZero.int_of_string _); simplify_eq/=.
  by rewrite DecimalZ.of_to in H; simplify_eq.
Qed.

#[global] Instance py_str_inj : Inj (=) (=) py_str.
Proof.
  intros a b H. assert (Ok a = Ok b) as [=]; [|done].
  by rewrite <- !py_int_str, H.
Qed.

(** ** The "taken" predicate *)

Lemma order_holds_spec db pk :
  existsb (order_holds pk) (db_order_positions db) = true ↔ order_hold db pk.
Proof.
  rewrite existsb_exists. unfold order_hold, order_holds. split.
  - intros (op & Hin & H). apply andb_true_iff in H as [H1 H2].
    apply bool_decide_eq_true in H1, H2. exists op. rewrite list_elem_of_In.
    repeat split; try done. set_solver.
  - intros (op & Hin & H1 & H2). exists op. rewrite <- list_elem_of_In. split; [done|].
    apply andb_true_iff. split; apply bool_decide_eq_true; [done|set_solver].
Qed.

Lemma voucher_holds_spec db now pk :
  existsb (voucher_holds now pk) (db_vouchers db) = true ↔ voucher_hold db now pk.
Proof.
  rewrite existsb_exists. unfold voucher_hold, voucher_holds. split.
  - intros (v & Hin & H). apply andb_true_iff in H as [H1 H2].
    apply andb_true_iff in H2 as [H2 H3].
    apply bool_decide_eq_true in H1. apply Z.ltb_lt in H3.
    exists v. rewrite list_elem_of_In. repeat split; try done.
    destruct (v_valid_until v) as [t|]; [right|by left].
    exists t. split; [done|]. by apply Z.leb_le.
  - intros (v & Hin & H1 & H2 & H3). exists v. rewrite <- list_elem_of_In. split; [done|].
    rewrite !andb_true_iff. repeat split.
    + by apply bool_decide_eq_true.
    + destruct H2 as [->|(t & -> & Ht)]; [done|]. by apply Z.leb_le.
    + by apply Z.ltb_lt.
Qed.

Lemma cpq_lookup db now seat excl k p :
  cpq db now seat excl !! k = Some p ↔
  db_cart_positions db !! k = Some p ∧ cp_seat p = Some (seat_pk seat)
  ∧ now ≤ cp_expires p ∧ not_excluded excl k.
Proof.
  unfold cpq, not_excluded. destruct excl as [id|].
  - destruct (Z.eqb_spec id 0) as [->|Hne].
    + rewrite map_lookup_filter_Some. simpl. naive_solver.
    + rewrite lookup_delete_Some, map_lookup_filter_Some. simpl. naive_solver.
  - rewrite map_lookup_filter_Some. simpl. naive_solver.
Qed.

Lemma cpq_exists db now seat excl :
  cpq db now seat excl ≠ ∅ ↔
  cart_hold db now (seat_pk seat) (fun k _ => not_excluded excl k).
Proof.
  unfold cart_hold. split.
  - intros Hne. apply map_choose in Hne as (k & p & Hkp).
    apply cpq_lookup in Hkp. naive_solver.
  - intros (k & p & H1 & H2 & H3 & H4) Hempty.
    assert (cpq db now seat excl !! k = Some p) as Hkp by by apply cpq_lookup.
    by rewrite Hempty, lookup_empty in Hkp.
Qed.

(** What [is_seat_taken] computes: a pending or paid order position, or an
    unexpired cart position other than the excluded one, or a live voucher
    references the seat.  The seat's [blocked] flag plays no part, and a
    position of the requester's own cart counts unless it is the excluded
    one. *)
Lemma is_seat_taken_iff db now seat excl :
  is_seat_taken db now seat excl = true ↔
  order_hold db (seat_pk seat)
  ∨ cart_hold db now (seat_pk seat) (fun k _ => not_excluded excl k)
  ∨ voucher_hold db now (seat_pk seat).
Proof.
  unfold is_seat_taken.
  rewrite <- order_holds_spec, <- cpq_exists, <- voucher_holds_spec.
  destruct (existsb (order_holds _) _); [naive_solver|].
  case_bool_decide; [naive_solver|].
  destruct (existsb (voucher_holds _ _) _); naive_solver.
Qed.

Lemma sample_db_cart k p :
  db_cart_positions sample_db !! k = Some p →
  (k = 1 ∧ p = sample_position "A" (Some 10))
  ∨ (k = 2 ∧ p = sample_position "A" None)
  ∨ (k = 3 ∧ p = sample_position "B" None).
Proof.
  simpl. rewrite !lookup_insert_Some, lookup_singleton_Some. naive_solver.
Qed.

(** C1, at two inputs the endpoints can receive.  Seat S2 is blocked and
    nothing holds it: [is_seat_taken] answers [false] where the specified
    predicate holds, and the request that assigns S2 to position 2 succeeds.
    Seat S1 is held by position 1 of the requester's own cart A and by
    nothing else: for position 2 of the same cart [is_seat_taken] answers
    [true] where the specified predicate does not hold, and the request is
    rejected. *)
Theorem is_seat_taken_blocked_and_own_cart :
  (CheckoutSeatSelectionView.is_seat_taken sample_db 50 seat_S2 (Some 2) = false
   ∧ SeatSelectionView.is_seat_taken sample_db 50 seat_S2 (Some 2) = false
   ∧ spec_taken sample_db 50 seat_S2 "A"
   ∧ (SeatSelectionView.post sample_loads sample_db 50
        (sample_request text_assign_2_S2)).1
     = success_response select_seats)
  ∧ (CheckoutSeatSelectionView.is_seat_taken sample_db 50 seat_S1 (Some 2) = true
     ∧ SeatSelectionView.is_seat_taken sample_db 50 seat_S1 (Some 2) = true
     ∧ ¬ spec_taken sample_db 50 seat_S1 "A"
     ∧ (SeatSelectionView.post sample_loads sample_db 50
          (sample_request text_assign_2_S1)).1
       = error_response (msg_unavailable "Row 1, Seat 1") 400).
Proof.
  split.
  - repeat split; try by vm_compute. by left.
  - repeat split; try by vm_compute.
    intros [Hb|[Ho|[Hv|Hc]]].
    + done.
    + destruct Ho as (op & Hin & _). by apply elem_of_nil in Hin.
    + destruct Hv as (v & Hin & _). by apply elem_of_nil in Hin.
    + destruct Hc as (k & p & Hk & Hs & _ & Hc).
      apply sample_db_cart in Hk as [[-> ->]|[[-> ->]|[-> ->]]]; done.
Qed.

(** ** The assignment transaction *)

Section Transaction.
Variable json_loads : string -> option json.
Variables (db : Db) (now : Z) (r : request).

Lemma positions_lookup pk p :
  positions db r !! pk = Some p ↔
  db_cart_positions db !! pk = Some p ∧ in_callers_cart r p.
Proof.
  unfold positions, in_callers_cart. rewrite map_lookup_filter_Some. naive_solver.
Qed.

Lemma position_map_lookup k pk p :
  position_map db r !! k = Some (pk, p) ↔
  k = py_str pk ∧ positions db r !! pk = Some p.
Proof.
  unfold position_map. rewrite lookup_kmap_Some; [|apply _].
  split.
  - intros (i & -> & Hi). rewrite map_lookup_imap in Hi.
    destruct (positions db r !! i) eqn:E; simpl in Hi; [|done].
    by simplify_eq.
  - intros [-> Hp]. exists pk. split; [done|]. by rewrite map_lookup_imap, Hp.
Qed.

Lemma position_map_str pk :
  position_map db r !! py_str pk = (pk,.) <$> positions db r !! pk.
Proof.
  unfold position_map. rewrite lookup_kmap; [|apply _].
  rewrite map_lookup_imap. by destruct (positions db r !! pk).
Qed.

(** [pk__in=position_map.keys()] selects the positions of the caller's
    cart. *)
Lemma elem_of_key_pks pk :
  pk ∈ key_pks db r ↔ is_Some (positions db r !! pk).
Proof.
  unfold key_pks. rewrite list_elem_of_omap. split.
  - intros ([k [pk' p]] & Hin & Hint). apply elem_of_map_to_list in Hin.
    apply position_map_lookup in Hin as [-> Hp]. simpl in Hint.
    rewrite py_int_str in Hint. by simplify_eq.
  - intros [p Hp]. exists (py_str pk, (pk, p)). split.
    + apply elem_of_map_to_list. by apply position_map_lookup.
    + simpl. by rewrite py_int_str.
Qed.

Lemma clear_seats_lookup (table : gmap Z CartPosition) pk :
  clear_seats db r table !! pk =
  (λ p, if bool_decide (is_Some (positions db r !! pk)) then set_seat p None else p)
    <$> table !! pk.
Proof.
  unfold clear_seats. rewrite map_lookup_imap.
  destruct (table !! pk) as [p|]; simpl; [|done].
  by rewrite (bool_decide_ext _ _ (elem_of_key_pks pk)).
Qed.

Lemma dict_set_fresh {V} (d : list (string * V)) k v :
  k ∉ d.*1 → dict_set d k v = d ++ [(k, v)].
Proof.
  induction d as [|[k' v'] d IH]; simpl; [done|].
  rewrite not_elem_of_cons. intros [Hne Hnin].
  destruct (String.eqb_spec k' k); [congruence|]. by rewrite IH.
Qed.

Lemma dict_set_keys {V} (d : list (string * V)) k v k' :
  k' ∈ (dict_set d k v).*1 → k' = k ∨ k' ∈ d.*1.
Proof.
  induction d as [|[k0 v0] d IH]; simpl.
  - rewrite list_elem_of_singleton. auto.
  - destruct (String.eqb_spec k0 k); simpl; rewrite !elem_of_cons; naive_solver.
Qed.

Lemma resolve_seats_Continue items acc sta :
  NoDup (acc.*1 ++ items.*1) →
  resolve_seats db now r items acc = Continue sta →
  ∃ new, sta = acc ++ new ∧ Forall2 (accepted db now r) items new.
Proof.
  revert acc. induction items as [|[k g] items IH]; intros acc Hnd; simpl.
  - intros [= <-]. exists []. by rewrite app_nil_r.
  - destruct (seat_get db g (event r)) as [seat| |n] eqn:Hget; try done.
    destruct (py_int k) as [id|e] eqn:Hint; simpl; [|done].
    destruct (is_seat_taken db now seat (Some id)) eqn:Htaken; [done|].
    intros Hres.
    assert (k ∉ acc.*1) as Hfresh.
    { apply NoDup_app in Hnd as (_ & Hd & _). intros Hin.
      apply (Hd _ Hin). simpl. left. }
    rewrite dict_set_fresh in Hres by done.
    apply IH in Hres as (new & -> & HF).
    + exists ((k, seat) :: new). split; [by rewrite <- app_assoc|].
      constructor; [|done]. repeat split; simpl; eauto.
    + rewrite fmap_app, <- app_assoc. done.
Qed.

Lemma resolve_seats_keys items acc sta k :
  resolve_seats db now r items acc = Continue sta →
  k ∈ sta.*1 → k ∈ acc.*1 ∨ k ∈ items.*1.
Proof.
  revert acc. induction items as [|[k0 g] items IH]; intros acc; simpl.
  - intros [= <-]. auto.
  - destruct (seat_get db g (event r)) as [seat| |n]; try done.
    destruct (py_int k0) as [id|e]; simpl; [|done].
    destruct (is_seat_taken db now seat (Some id)); [done|].
    intros Hres Hk. destruct (IH _ Hres Hk) as [Hk'|Hk'].
    + apply dict_set_keys in Hk' as [->|?]; [right; left|by left].
    + right. by right.
Qed.

Lemma resolve_seats_Return items acc resp :
  resolve_seats db now r items acc = Return resp → rejection resp.
Proof.
  revert acc. induction items as [|[k g] items IH]; intros acc; simpl; [done|].
  destruct (seat_get db g (event r)) as [seat| |n]; try done.
  - destruct (py_int k) as [id|e]; simpl; [|done].
    destruct (is_seat_taken db now seat (Some id)).
    + intros [= <-]. unfold rejection. eauto 10.
    + apply IH.
  - intros [= <-]. unfold rejection. auto.
Qed.

(** The writes of the commit raise nothing when every key is a key of
    [position_map]. *)
Lemma save_seats_ok sta table :
  (∀ k, k ∈ sta.*1 → is_Some (position_map db r !! k)) →
  (save_seats db r sta table).2 = None.
Proof.
  revert table. induction sta as [|[k s] sta IH]; intros table Hk; simpl; [done|].
  destruct (Hk k) as [[pk p] Hp]; [simpl; left|]. rewrite Hp.
  apply IH. intros k' Hk'. apply Hk. simpl. by right.
Qed.

Lemma save_seats_other sta table pk :
  py_str pk ∉ sta.*1 →
  (save_seats db r sta table).1 !! pk = table !! pk.
Proof.
  revert table. induction sta as [|[k s] sta IH]; intros table; simpl; [done|].
  rewrite not_elem_of_cons. intros [Hne Hnin].
  destruct (position_map db r !! k) as [[pk' p]|] eqn:Hp; [|done].
  rewrite IH by done. apply lookup_insert_ne.
  apply position_map_lookup in Hp as [-> _]. congruence.
Qed.

Lemma save_seats_assigned sta table pk p s :
  (∀ k, k ∈ sta.*1 → is_Some (position_map db r !! k)) →
  NoDup sta.*1 →
  (py_str pk, s) ∈ sta →
  positions db r !! pk = Some p →
  (save_seats db r sta table).1 !! pk = Some (set_seat p (Some (seat_pk s))).
Proof.
  revert table. induction sta as [|[k s'] sta IH]; intros table Hk Hnd Hin Hp; simpl.
  - by apply elem_of_nil in Hin.
  - apply NoDup_cons in Hnd as [Hk1 Hnd].
    apply elem_of_cons in Hin as [[= <- <-]|Hin].
    + rewrite position_map_str, Hp. simpl.
      rewrite save_seats_other by done. apply lookup_insert_eq.
    + destruct (position_map db r !! k) as [[pk' p']|] eqn:Hp'.
      * apply IH; [|done..]. intros k' Hk'. apply Hk. simpl. by right.
      * destruct (Hk k) as [? ?]; [simpl; left|congruence].
Qed.

Lemma validate_Continue data sta :
  validate db now r data = Continue sta →
  ∃ fields items,
    data = JObj fields
    ∧ default (JObj []) (dict_lookup fields "seat_assignments") = JObj items
    ∧ (∀ k, k ∈ items.*1 → is_Some (position_map db r !! k))
    ∧ resolve_seats db now r items [] = Continue sta.
Proof.
  unfold validate. destruct data as [| | | | |fields]; try done. simpl.
  destruct (default (JObj []) (dict_lookup fields "seat_assignments"))
    as [| | | | |items] eqn:Hsa; try done. simpl.
  unfold check_positions.
  destruct (forallb _ _) eqn:Hall; [|done]. simpl.
  destruct (check_duplicates (map snd items)); try done. simpl.
  intros Hres. exists fields, items. repeat split; try done.
  intros k Hk. rewrite forallb_forall in Hall.
  apply list_elem_of_In, Hall in Hk. by apply bool_decide_eq_true in Hk.
Qed.

(** Every response [validate] returns is one of the four rejections. *)
Lemma validate_Return data resp :
  validate db now r data = Return resp → rejection resp.
Proof.
  unfold validate. destruct data as [| | | | |fields]; try done. simpl.
  destruct (default (JObj []) (dict_lookup fields "seat_assignments"))
    as [| | | | |items]; try done. simpl.
  unfold check_positions. destruct (forallb _ _); simpl.
  - unfold check_duplicates.
    destruct (py_set (map snd items) []) as [s|e]; simpl; [|done].
    case_bool_decide; simpl.
    + intros [= <-]. unfold rejection. auto.
    + apply resolve_seats_Return.
  - intros [= <-]. unfold rejection. auto.
Qed.

Lemma rejection_status resp :
  rejection resp → resp_status resp = 400 ∨ resp_status resp = 404.
Proof. intros [->|[->|[->|[? ->]]]]; simpl; auto. Qed.

Lemma handle_Uncaught e :
  handle (Uncaught e) = error_response msg_invalid_request 400
  ∨ handle (Uncaught e) = error_response (exn_msg e) 500.
Proof. simpl. destruct (exn_cls e); auto. Qed.

Lemma endpoint_post_unfold ep :
  endpoint_post json_loads ep db now r
  = post json_loads (success_response ep) db now r.
Proof. by destruct ep. Qed.

(** When validation lets the request through, [post] answers with the
    success response and leaves the cleared and re-linked table. *)
Lemma post_Continue success data sta :
  json_loads (body r) = Some data →
  validate db now r data = Continue sta →
  post json_loads success db now r
  = (success,
     with_cart_positions db
       (save_seats db r sta (clear_seats db r (db_cart_positions db))).1).
Proof.
  intros Hd Hv. unfold post, post_body. rewrite Hd, Hv.
  apply validate_Continue in Hv as (fields & items & -> & Hsa & Hk & Hres).
  pose proof (save_seats_ok sta (clear_seats db r (db_cart_positions db))) as Hok.
  destruct (save_seats _ _ _ _) as [table o]; simpl in *.
  rewrite Hok; [done|].
  intros k Hin. destruct (resolve_seats_keys _ _ _ _ Hres Hin) as [Hin'|Hin'].
  - by apply elem_of_nil in Hin'.
  - by apply Hk.
Qed.

(** A response other than a success leaves the database as it was. *)
Lemma post_no_write success :
  resp_status success = 200 →
  resp_status (post json_loads success db now r).1 ≠ 200 →
  (post json_loads success db now r).2 = db.
Proof.
  intros Hs Hne. unfold post, post_body in *.
  destruct (json_loads (body r)) as [data|] eqn:Hd; [|done].
  destruct (validate db now r data) as [sta|resp|e] eqn:Hv; [|done..].
  exfalso. apply Hne. clear Hne.
  pose proof (post_Continue success data sta Hd Hv) as Hp.
  unfold post, post_body in Hp. rewrite Hd, Hv in Hp.
  destruct (save_seats _ _ _ _) as [table [e|]]; simpl in *; [|done].
  by injection Hp as ->.
Qed.


(** C6: a request answered with one of the four rejections (position not
    in cart, duplicate seat, seat not found, seat taken) leaves the
    database, and so every cart position's seat link, as it was. *)
Theorem rejected_request_writes_nothing ep :
  rejection (endpoint_post json_loads ep db now r).1 →
  (endpoint_post json_loads ep db now r).2 = db.
Proof.
  rewrite endpoint_post_unfold. intros Hrej.
  apply post_no_write; [by destruct ep|].
  apply rejection_status in Hrej. lia.
Qed.



End Transaction.



(** [rejected_request_writes_nothing] at the request
    [{"seat_assignments": {"1": "S1", "2": "S1"}}] of cart A. *)
Lemma rejected_request_writes_nothing_witness :
  let r := sample_request text_assign_duplicate in
  rejection (endpoint_post sample_loads (checkout_seats "/checkout/") sample_db 50 r).1
  ∧ (endpoint_post sample_loads (checkout_seats "/checkout/") sample_db 50 r).2
    = sample_db.
Proof.
  intros r.
  assert (rejection
            (endpoint_post sample_loads (checkout_seats "/checkout/") sample_db 50 r).1)
    as Hrej by (right; left; vm_compute; reflexivity).
  split; [exact Hrej|].
  exact (rejected_request_writes_nothing sample_loads sample_db 50 r
           (checkout_seats "/checkout/") Hrej).
Defined.

(** Each of the four rejections is the answer to some request of cart A:
    position 3 belongs to cart B, seat S1 is asked for twice, no seat has
    the guid S9, and seat S1 is held by position 1. *)
Lemma rejections_reachable :
  let answer text :=
    (endpoint_post sample_loads select_seats sample_db 50 (sample_request text)).1 in
  answer text_assign_3_S1 = error_response msg_cart_changed 400
  ∧ answer text_assign_duplicate = error_response msg_duplicate 400
  ∧ answer text_assign_2_S9 = error_response msg_invalid_seat 404
  ∧ answer text_assign_2_S1 = error_response (msg_unavailable "Row 1, Seat 1") 400.
Proof. repeat split; by vm_compute. Qed.




(** ** Category mappings *)

Section Mappings.
Import SeatmapDataAPIView.

Lemma foldl_insert_lookup (l : list SeatCategoryMapping) (acc : gmap string Z) c :
  foldl (fun acc m => <[m_layout_category m := m_product m]> acc) acc l !! c
  = match last (filter (fun m => m_layout_category m = c) l) with
    | Some m => Some (m_product m)
    | None => acc !! c
    end.
Proof.
  revert acc. induction l as [|m l IH]; intros acc; simpl; [done|].
  rewrite IH. rewrite filter_cons. case_decide as Hc.
  - rewrite last_cons. destruct (last (filter _ l)); [done|].
    subst c. by rewrite lookup_insert_eq.
  - destruct (last (filter _ l)); [done|]. by rewrite lookup_insert_ne.
Qed.

Lemma insert_row_general m l :
  m_subevent m = None → insert_row m l = m :: l.
Proof. intros H. destruct l; simpl; [done|]. unfold before. by rewrite H. Qed.

Lemma insert_row_specific S m (g sp : list SeatCategoryMapping) :
  m_subevent m = Some S →
  Forall (fun x => m_subevent x = None) g →
  Forall (fun x => m_subevent x = Some S) sp →
  insert_row m (g ++ sp) = g ++ m :: sp.
Proof.
  intros Hm Hg Hsp. induction Hg as [|x g Hx Hg IH]; simpl.
  - destruct Hsp as [|y sp Hy Hsp]; simpl; [done|].
    unfold before. rewrite Hm, Hy. by rewrite Z.leb_refl.
  - unfold before. rewrite Hm, Hx. by rewrite IH.
Qed.

Lemma order_two_keys S (l : list SeatCategoryMapping) :
  Forall (fun m => m_subevent m = Some S ∨ m_subevent m = None) l →
  order_by_subevent_id_reverse l
  = filter (fun m => m_subevent m = None) l
    ++ filter (fun m => m_subevent m = Some S) l.
Proof.
  unfold order_by_subevent_id_reverse.
  induction 1 as [|m l Hm Hl IH]; simpl; [done|].
  rewrite IH, !filter_cons. destruct Hm as [Hm|Hm].
  - rewrite decide_False by congruence. rewrite decide_True by done.
    apply (insert_row_specific S); [done|..]; by apply Forall_forall; intros x Hx%list_elem_of_filter; destruct Hx.
  - rewrite decide_True by done. rewrite decide_False by congruence.
    by apply insert_row_general.
Qed.

Lemma last_filter_Some {A} (P : A → Prop) `{∀ x, Decision (P x)} (l : list A) x :
  last (filter P l) = Some x → x ∈ l ∧ P x.
Proof.
  intros Hl. apply last_Some in Hl as [l' Hl].
  assert (x ∈ filter P l) as Hin by (rewrite Hl; set_solver).
  by apply list_elem_of_filter in Hin as [? ?].
Qed.

Lemma last_filter_None {A} (P : A → Prop) `{∀ x, Decision (P x)} (l : list A) x :
  last (filter P l) = None → x ∈ l → ¬ P x.
Proof.
  intros Hl Hin HP. apply last_None in Hl.
  assert (x ∈ filter P l) as Hin' by by apply list_elem_of_filter.
  rewrite Hl in Hin'. by apply elem_of_nil in Hin'.
Qed.


(** The data endpoint without subevent: only general mappings apply. *)
Lemma category_mappings_no_subevent table event c :
  match category_mappings table event None !! c with
  | Some p => ∃ m, general_mapping table event c m ∧ m_product m = p
  | None => ∀ m, ¬ general_mapping table event c m
  end.
Proof.
  unfold category_mappings, q_mappings.
  rewrite foldl_insert_lookup, lookup_empty. unfold general_mapping.
  destruct (last _) as [m|] eqn:Hg.
  - exists m. split; [|done].
    apply last_filter_Some in Hg as [Hin Hc].
    apply list_elem_of_filter in Hin as [Hs Hin].
    apply list_elem_of_filter in Hin as [He Hin]. done.
  - intros m (Hin & He & Hc & Hs).
    eapply (last_filter_None _ _ m Hg); [|done].
    repeat (apply list_elem_of_filter; split; try done).
Qed.
End Mappings.

(** C3, at scenario A and at a category mapped for subevent 5 only.  The
    data endpoint follows the precedence; the checkout page builds
    [product_mappings] from every mapping of the event and has no subevent
    among its inputs, so it resolves Standard to the product of the
    subevent-5 mapping when no subevent is given, and Balcony to product 4
    although no general mapping exists. *)
Theorem checkout_page_mappings_ignore_subevent :
  (SeatmapDataAPIView.category_mappings scenario_mappings 1 None !! "Standard" = Some 2
   ∧ SeatmapDataAPIView.category_mappings scenario_mappings 1 (Some subevent_5)
       !! "Standard" = Some 3
   ∧ SeatmapDataAPIView.category_mappings scenario_mappings 1 (Some subevent_6)
       !! "Standard" = Some 2
   ∧ SeatmapDataAPIView.category_mappings specific_only 1 None !! "Balcony" = None)
  ∧ CheckoutSeatSelectionView.product_mappings scenario_mappings 1 !! "Standard" = Some 3
  ∧ CheckoutSeatSelectionView.product_mappings specific_only 1 !! "Balcony" = Some 4.
Proof. repeat split; by vm_compute. Qed.

(** ** Seat categories of the layout *)

Lemma foldM_map {A B C} (f : B → A → result B) (g : C → A) (h : B → C → B) l b :
  (∀ b x, f b (g x) = Ok (h b x)) →
  foldM f (map g l) b = Ok (foldl h b l).
Proof.
  intros Hf. revert b. induction l as [|x l IH]; intros b; simpl; [done|].
  by rewrite Hf, IH.
Qed.

Lemma zone_seat_node fallback d s :
  SeatmapDataAPIView.zone_seat (default JNull (JStr <$> fallback)) d (json_of_seat s)
  = Ok (spec_entry fallback d s).
Proof.
  unfold SeatmapDataAPIView.zone_seat, spec_entry, json_of_seat. simpl.
  destruct (String.eqb (sn_guid s) ""); simpl; [done|].
  destruct (sn_category s) as [c|]; simpl.
  - destruct (String.eqb c ""); simpl; [|done].
    destruct fallback as [c'|]; simpl; [|done]. by destruct (String.eqb c' "").
  - destruct fallback as [c'|]; simpl; [|done]. by destruct (String.eqb c' "").
Qed.

Lemma flat_seat_node d s :
  SeatmapDataAPIView.flat_seat d (json_of_seat s) = Ok (spec_entry None d s).
Proof.
  unfold SeatmapDataAPIView.flat_seat, spec_entry, json_of_seat. simpl.
  destruct (String.eqb (sn_guid s) ""); simpl.
  - by destruct (sn_category s).
  - destruct (sn_category s) as [c|]; simpl; [|done]. by destruct (String.eqb c "").
Qed.

Lemma zone_row_node d r :
  SeatmapDataAPIView.zone_row d (json_of_row r)
  = Ok (foldl (spec_entry (rn_category r)) d (rn_seats r)).
Proof.
  unfold SeatmapDataAPIView.zone_row, json_of_row.
  destruct (rn_category r) as [c|] eqn:Hc; simpl.
  - apply (foldM_map _ _ (spec_entry (Some c))). intros b x. apply (zone_seat_node (Some c)).
  - apply (foldM_map _ _ (spec_entry None)). intros b x. apply (zone_seat_node None).
Qed.

(** The data endpoint on a zone-based layout: every seat with a guid gets
    its own category if present, else its row's, and no entry otherwise. *)
Lemma find_seat_categories_zoned zones d :
  SeatmapDataAPIView.find_seat_categories (zoned_layout zones) d
  = Ok (spec_zoned zones d).
Proof.
  unfold SeatmapDataAPIView.find_seat_categories, zoned_layout, spec_zoned. simpl.
  apply foldM_map. intros b rows. unfold SeatmapDataAPIView.zone, json_of_zone. simpl.
  apply foldM_map. intros b' r. apply zone_row_node.
Qed.

(** The data endpoint on a legacy flat layout: only the seat's own category
    is used. *)
Lemma find_seat_categories_legacy seats d :
  SeatmapDataAPIView.find_seat_categories (legacy_layout seats) d
  = Ok (spec_legacy seats d).
Proof.
  unfold SeatmapDataAPIView.find_seat_categories, legacy_layout, spec_legacy. simpl.
  apply foldM_map. intros b s. apply flat_seat_node.
Qed.

Lemma guid_entry_node d s :
  CheckoutSeatSelectionView.guid_entry d (json_of_seat s) = Ok (own_entry d s).
Proof.
  unfold CheckoutSeatSelectionView.guid_entry, own_entry, json_of_seat. simpl.
  by destruct (sn_category s).
Qed.

(** The checkout page on a zone-based layout: every seat gets an entry with
    its own category, whatever its row's category is. *)
Lemma guid_to_category_name_zoned zones :
  CheckoutSeatSelectionView.guid_to_category_name (zoned_layout zones)
  = Ok (foldl (fun d rows => foldl (fun d r => foldl own_entry d (rn_seats r)) d rows)
              [] zones).
Proof.
  unfold CheckoutSeatSelectionView.guid_to_category_name, zoned_layout. simpl.
  apply foldM_map. intros b rows.
  unfold CheckoutSeatSelectionView.zone_entries, json_of_zone. simpl.
  apply foldM_map. intros b' r.
  unfold CheckoutSeatSelectionView.row_entries, json_of_row.
  destruct (rn_category r); simpl; apply foldM_map; intros; apply guid_entry_node.
Qed.

(** C4, at scenario A and at a flat layout.  The data endpoint gives S2 its
    row's category and reads the flat layout; the checkout page gives S2 no
    category (an entry with [None]) and finds no seat in the flat layout. *)
Theorem checkout_page_categories_lack_fallback :
  (SeatmapDataAPIView.find_seat_categories scenario_layout []
   = Ok [(JStr "S1", JStr "VIP"); (JStr "S2", JStr "Standard")]
   ∧ SeatmapDataAPIView.find_seat_categories flat_layout []
     = Ok [(JStr "S3", JStr "VIP")])
  ∧ CheckoutSeatSelectionView.guid_to_category_name scenario_layout
    = Ok [(JStr "S1", JStr "VIP"); (JStr "S2", JNull)]
  ∧ CheckoutSeatSelectionView.guid_to_category_name flat_layout = Ok [].
Proof. repeat split; by vm_compute. Qed.

(** ** Seat status *)

(** The decision order of the data endpoint (lines 110-116), first match
    wins: no available product, then the caller's own cart, then a hold by
    an order, a cart or a voucher, else available.  [a_blocked] is not among
    the conditions. *)
Lemma api_seat_status_decision cs seat avail :
  SeatmapDataAPIView.seat_status cs seat avail
  = if negb avail then unavailable
    else if bool_decide (a_seat_guid seat ∈ cs) then selected
    else if has_order seat || has_cart seat || has_voucher seat then unavailable
    else available.
Proof.
  unfold SeatmapDataAPIView.seat_status, held.
  destruct avail; simpl; [|done].
  case_bool_decide; simpl; [done|].
  by rewrite andb_true_r.
Qed.

(** Every seat of the data endpoint gets one status, and only [selected]
    when the caller's cart holds it. *)
Lemma api_seat_status_selected cs seat avail :
  SeatmapDataAPIView.seat_status cs seat avail = selected ↔
  avail = true ∧ a_seat_guid seat ∈ cs.
Proof.
  rewrite api_seat_status_decision. destruct avail; simpl; [|naive_solver].
  case_bool_decide; [naive_solver|].
  destruct (has_order seat || has_cart seat || has_voucher seat); naive_solver.
Qed.

(** C5, at a blocked seat with an available product that nobody holds: the
    data endpoint and the checkout flow step report it [available]; the
    checkout page, which tests [seat.blocked], reports it [unavailable]. *)
Theorem blocked_seat_reported_available :
  (SeatmapDataAPIView.get sample_loads (api_env text_layout)
   = Ok ([ {| SeatmapDataAPIView.e_guid := "S1";
              SeatmapDataAPIView.e_category := JStr "VIP";
              SeatmapDataAPIView.e_category_color := "#944b88";
              SeatmapDataAPIView.e_product := Some 1;
              SeatmapDataAPIView.e_status := available |} ],
         sample_layout)
   ∧ SeatSelectionStep.statuses true (Some text_layout) [blocked_seat] []
     = [("S1", available)])
  ∧ CheckoutSeatSelectionView.get_context_data sample_loads (page_env text_layout)
    = Ok ([ {| CheckoutSeatSelectionView.e_guid := "S1";
               CheckoutSeatSelectionView.e_product := Some 1;
               CheckoutSeatSelectionView.e_status := unavailable |} ],
          sample_layout).
Proof. repeat split; by vm_compute. Qed.

(** ** Layouts that cannot be used *)






(** ** The answers of the assignment endpoints *)

Section Answers.
Variable json_loads : string -> option json.
Variables (db : Db) (now : Z) (r : request).

End Answers.

(** ** What a committed assignment guarantees *)

Lemma py_eq_refl_str g : py_eq (JStr g) (JStr g) = true.
Proof. simpl. apply String.eqb_refl. Qed.

Lemma py_set_length vs acc s :
  py_set vs acc = Ok s → (length acc ≤ length s ≤ length acc + length vs)%nat.
Proof.
  revert acc. induction vs as [|v vs IH]; intros acc; simpl.
  - intros [= <-]. lia.
  - destruct (py_hashable v); [|done]. intros H. apply IH in H.
    destruct (existsb (py_eq v) acc); rewrite ?length_app in H; simpl in H; lia.
Qed.

(** When [set(vs)] has as many elements as [vs], no element of [vs] equals
    an element of [acc] or an earlier element of [vs]. *)
Lemma py_set_distinct vs acc s :
  py_set vs acc = Ok s → length s = (length acc + length vs)%nat →
  (∀ v a, v ∈ vs → a ∈ acc → py_eq v a = false)
  ∧ ∀ i j a b, (i < j)%nat → vs !! i = Some a → vs !! j = Some b → py_eq b a = false.
Proof.
  revert acc. induction vs as [|v vs IH]; intros acc; simpl.
  - intros _ _. split; [by intros ?? ?%elem_of_nil|]. by intros ???? _ ?.
  - destruct (py_hashable v); [|done]. intros Hs Hlen.
    destruct (existsb (py_eq v) acc) eqn:Hex.
    { apply py_set_length in Hs. lia. }
    apply IH in Hs as [Hacc Hpair]; [|rewrite length_app; simpl; lia].
    assert (∀ a, a ∈ acc → py_eq v a = false) as Hv.
    { intros a Ha. destruct (py_eq v a) eqn:E; [|done].
      assert (existsb (py_eq v) acc = true); [|congruence].
      apply existsb_exists. exists a. by rewrite <- list_elem_of_In. }
    split.
    + intros w a [->|Hw]%elem_of_cons Ha; [by apply Hv|].
      apply Hacc; [done|]. apply elem_of_app. by left.
    + intros i j a b Hij Hi Hj. destruct j as [|j]; [lia|]. simpl in Hj.
      destruct i as [|i]; simpl in Hi.
      * injection Hi as <-. apply Hacc.
        -- by eapply list_elem_of_lookup_2.
        -- apply elem_of_app. right. by left.
      * apply (Hpair i j); [lia|done..].
Qed.

Lemma check_duplicates_distinct vs i j a b :
  check_duplicates vs = Continue tt →
  vs !! i = Some a → vs !! j = Some b → py_eq a b = true → py_eq b a = true → i = j.
Proof.
  unfold check_duplicates. destruct (py_set vs []) as [s|e] eqn:Hs; simpl; [|done].
  case_bool_decide as Hlen; [done|]. intros _ Hi Hj Hab Hba.
  destruct (py_set_distinct _ _ _ Hs) as [_ Hpair]; [simpl; lia|].
  destruct (Nat.lt_trichotomy i j) as [Hlt|[->|Hlt]]; [|done|].
  - rewrite (Hpair i j a b Hlt Hi Hj) in Hba. done.
  - rewrite (Hpair j i b a Hlt Hj Hi) in Hab. done.
Qed.

Section Committed.
Variable json_loads : string -> option json.
Variables (db : Db) (now : Z) (r : request).

Lemma seat_get_Found guid s :
  seat_get db guid (event r) = Found s →
  s ∈ db_seats db ∧ charfield_value guid = Some (seat_guid s).
Proof.
  unfold seat_get.
  destruct (filter _ (db_seats db)) as [|s' [|??]] eqn:Hf; try done.
  intros [= <-].
  assert (s' ∈ filter (λ s, seat_event s = event r
                            ∧ charfield_value guid = Some (seat_guid s)) (db_seats db))
    as Hin by (rewrite Hf; left).
  apply list_elem_of_filter in Hin. naive_solver.
Qed.

Lemma validate_Continue_inv data sta :
  validate db now r data = Continue sta →
  ∃ fields items,
    data = JObj fields
    ∧ default (JObj []) (dict_lookup fields "seat_assignments") = JObj items
    ∧ (∀ k, k ∈ items.*1 → is_Some (position_map db r !! k))
    ∧ check_duplicates (map snd items) = Continue tt
    ∧ resolve_seats db now r items [] = Continue sta.
Proof.
  unfold validate. destruct data as [| | | | |fields]; try done. simpl.
  destruct (default (JObj []) (dict_lookup fields "seat_assignments"))
    as [| | | | |items] eqn:Hsa; try done. simpl.
  unfold check_positions.
  destruct (forallb _ _) eqn:Hall; [|done]. simpl.
  destruct (check_duplicates (map snd items)) as [[]| |] eqn:Hdup; try done. simpl.
  intros Hres. exists fields, items. repeat split; try done.
  intros k Hk. rewrite forallb_forall in Hall.
  apply list_elem_of_In, Hall in Hk. by apply bool_decide_eq_true in Hk.
Qed.

Lemma validate_intro fields items sta :
  default (JObj []) (dict_lookup fields "seat_assignments") = JObj items →
  (∀ k, k ∈ items.*1 → is_Some (position_map db r !! k)) →
  check_duplicates (map snd items) = Continue tt →
  resolve_seats db now r items [] = Continue sta →
  validate db now r (JObj fields) = Continue sta.
Proof.
  intros Hsa Hk Hdup Hres. unfold validate. simpl. rewrite Hsa. simpl.
  unfold check_positions.
  assert (forallb (λ pos_id, bool_decide (is_Some (position_map db r !! pos_id)))
                  (map fst items) = true) as ->.
  { apply forallb_forall. intros k Hin%list_elem_of_In.
    apply bool_decide_eq_true. by apply Hk. }
  simpl. rewrite Hdup. done.
Qed.

Lemma resolve_seats_intro items acc new :
  NoDup (acc.*1 ++ items.*1) →
  Forall2 (accepted db now r) items new →
  resolve_seats db now r items acc = Continue (acc ++ new).
Proof.
  intros Hnd HF. revert acc Hnd.
  induction HF as [|[k g] [k' s] items new (Hk & Hget & id & Hid & Htaken) HF IH];
    intros acc Hnd; simpl in *.
  - by rewrite app_nil_r.
  - subst k'. rewrite Hget, Hid. simpl. rewrite Htaken.
    rewrite dict_set_fresh.
    + rewrite IH; [by rewrite <- app_assoc|].
      rewrite fmap_app, <- app_assoc. done.
    + apply NoDup_app in Hnd as (_ & Hd & _). intros Hin.
      apply (Hd _ Hin). left.
Qed.

Lemma post_success_inv ep fields items :
  json_loads (body r) = Some (JObj fields) →
  default (JObj []) (dict_lookup fields "seat_assignments") = JObj items →
  NoDup items.*1 →
  resp_status (endpoint_post json_loads ep db now r).1 = 200 →
  ∃ sta,
    Forall2 (accepted db now r) items sta
    ∧ (∀ k, k ∈ items.*1 → is_Some (position_map db r !! k))
    ∧ check_duplicates (map snd items) = Continue tt
    ∧ endpoint_post json_loads ep db now r
      = (success_response ep, with_cart_positions db (committed db r sta)).
Proof.
  intros Hd Hsa Hnd Hst. rewrite endpoint_post_unfold in *.
  destruct (validate db now r (JObj fields)) as [sta|resp|e] eqn:Hv.
  - rewrite (post_Continue _ _ _ _ _ _ sta Hd Hv).
    apply validate_Continue_inv in Hv
      as (fields' & items' & [= <-] & Hsa' & Hk & Hdup & Hres).
    rewrite Hsa in Hsa'. injection Hsa' as <-.
    apply resolve_seats_Continue in Hres as (new & -> & HF); [|done].
    exists new. done.
  - exfalso. unfold post, post_body in Hst. rewrite Hd, Hv in Hst. simpl in Hst.
    apply validate_Return, rejection_status in Hv. lia.
  - exfalso. unfold post, post_body in Hst. rewrite Hd, Hv in Hst.
    cbn [fst] in Hst. destruct (handle_Uncaught e) as [H|H]; by rewrite H in Hst.
Qed.

Lemma accepted_keys items sta :
  Forall2 (accepted db now r) items sta → sta.*1 = items.*1.
Proof.
  induction 1 as [|x y l l' [Hxy _] _ IH]; [done|].
  rewrite !fmap_cons. by rewrite IH, Hxy.
Qed.

(** The rows of the committed table, case by case. *)
Lemma committed_lookup items sta pk :
  Forall2 (accepted db now r) items sta →
  NoDup items.*1 →
  (∀ k, k ∈ items.*1 → is_Some (position_map db r !! k)) →
  match db_cart_positions db !! pk with
  | None => committed db r sta !! pk = None
  | Some p =>
      (∃ i guid s, items !! i = Some (py_str pk, guid) ∧ sta !! i = Some (py_str pk, s)
                   ∧ in_callers_cart r p
                   ∧ committed db r sta !! pk = Some (set_seat p (Some (seat_pk s))))
      ∨ ((py_str pk ∉ items.*1) ∧ in_callers_cart r p
         ∧ committed db r sta !! pk = Some (set_seat p None))
      ∨ ((py_str pk ∉ items.*1) ∧ ¬ in_callers_cart r p
         ∧ committed db r sta !! pk = Some p)
  end.
Proof.
  intros HF Hnd Hk. pose proof (accepted_keys _ _ HF) as Hkeys. unfold committed.
  destruct (db_cart_positions db !! pk) as [p|] eqn:Hp.
  - destruct (decide (py_str pk ∈ items.*1)) as [Hin|Hnin].
    + left. apply list_elem_of_fmap in Hin as ([k guid] & Hk' & Hin). simpl in Hk'. subst k.
      apply list_elem_of_lookup in Hin as [i Hi].
      destruct (Forall2_lookup_l _ _ _ _ _ HF Hi) as ([k s] & Hi' & Hk' & _).
      simpl in Hk'. subst k. exists i, guid, s. split; [done|]. split; [done|].
      destruct (Hk (py_str pk)) as [[pk' p'] Hpm].
      { apply list_elem_of_fmap. exists (py_str pk, guid). split; [done|].
        by eapply list_elem_of_lookup_2. }
      apply position_map_lookup in Hpm as [Heq Hpos]. apply (inj _) in Heq as <-.
      pose proof Hpos as [Hp' Hcart]%positions_lookup.
      assert (p' = p) as -> by congruence. split; [done|].
      apply save_seats_assigned; try done.
      * intros k Hin. apply Hk. by rewrite <- Hkeys.
      * by rewrite Hkeys.
      * by eapply list_elem_of_lookup_2.
    + right. rewrite save_seats_other by by rewrite Hkeys.
      rewrite clear_seats_lookup, Hp. simpl.
      destruct (decide (in_callers_cart r p)) as [Hcart|Hcart].
      * left. split; [done|]. split; [done|]. rewrite bool_decide_eq_true_2; [done|].
        exists p. by apply positions_lookup.
      * right. split; [done|]. split; [done|]. rewrite bool_decide_eq_false_2; [done|].
        intros [p' [Hp' ?]%positions_lookup]. by assert (p' = p) as -> by congruence.
  - rewrite save_seats_other, clear_seats_lookup, Hp; [done|].
    intros Hin. rewrite Hkeys in Hin. destruct (Hk _ Hin) as [[pk' p'] Hpm].
    apply position_map_lookup in Hpm as [Heq Hpos]. apply (inj _) in Heq as <-.
    apply positions_lookup in Hpos as [? _]. congruence.
Qed.
End Committed.

Section Holders.
Variables (db : Db) (now : Z) (r : request).

Lemma not_taken_inv s excl :
  is_seat_taken db now s excl = false →
  ¬ order_hold db (seat_pk s)
  ∧ ¬ voucher_hold db now (seat_pk s)
  ∧ ∀ k q, db_cart_positions db !! k = Some q → cp_seat q = Some (seat_pk s) →
           now ≤ cp_expires q → ¬ not_excluded excl k.
Proof.
  intros Hf.
  assert (¬ (is_seat_taken db now s excl = true)) as Hn by congruence.
  rewrite is_seat_taken_iff in Hn. unfold cart_hold in Hn. naive_solver.
Qed.

Lemma not_excluded_Some pk k : k ≠ pk → not_excluded (Some pk) k.
Proof. intros Hne id [= <-] _. done. Qed.

Lemma committed_held_once items sta i pk guid s :
  Forall2 (accepted db now r) items sta →
  NoDup items.*1 →
  (∀ k, k ∈ items.*1 → is_Some (position_map db r !! k)) →
  check_duplicates (map snd items) = Continue tt →
  string_guids items →
  seat_pk_unique db →
  items !! i = Some (py_str pk, guid) →
  sta !! i = Some (py_str pk, s) →
  held_by_only (with_cart_positions db (committed db r sta)) now pk (seat_pk s).
Proof.
  intros HF Hnd Hk Hdup Hstr Huniq Hi Hs.
  unfold string_guids in Hstr. rewrite Forall_forall in Hstr.
  destruct (Forall2_lookup_lr _ _ _ _ _ _ HF Hi Hs) as (_ & Hget & id & Hid & Htaken).
  simpl in *. rewrite py_int_str in Hid. injection Hid as <-.
  apply not_taken_inv in Htaken as (Ho & Hv & Hc).
  pose proof (seat_get_Found _ _ _ _ Hget) as [Hsin Hguid].
  split; [|split; [done|split; [done|]]].
  - pose proof (committed_lookup db now r items sta pk HF Hnd Hk) as Hl.
    destruct (db_cart_positions db !! pk) as [p|] eqn:Hp.
    + destruct Hl as [(i' & g' & s' & Hi' & Hs' & _ & Hrow)|[(Hnin & _)|(Hnin & _)]].
      * assert (i' = i) as ->.
        { eapply NoDup_lookup; [exact Hnd|..]; by rewrite list_lookup_fmap, ?Hi, ?Hi'. }
        assert (s' = s) as -> by congruence. eauto.
      * destruct Hnin. apply list_elem_of_fmap. exists (py_str pk, guid).
        split; [done|]. by eapply list_elem_of_lookup_2.
      * destruct Hnin. apply list_elem_of_fmap. exists (py_str pk, guid).
        split; [done|]. by eapply list_elem_of_lookup_2.
    + destruct (Hk (py_str pk)) as [[pk' p'] Hpm].
      { apply list_elem_of_fmap. exists (py_str pk, guid).
        split; [done|]. by eapply list_elem_of_lookup_2. }
      apply position_map_lookup in Hpm as [Heq Hpos]. apply (inj _) in Heq as <-.
      apply positions_lookup in Hpos as [? _]. congruence.
  - simpl. intros k q Hq Hseat Hexp.
    pose proof (committed_lookup db now r items sta k HF Hnd Hk) as Hl.
    destruct (db_cart_positions db !! k) as [p|] eqn:Hp; [|congruence].
    destruct Hl as [(j & g' & s' & Hj & Hs' & _ & Hrow)|[(_ & _ & Hrow)|(_ & _ & Hrow)]];
      rewrite Hrow in Hq; injection Hq as <-; simpl in Hseat.
    + injection Hseat as Hpk.
      destruct (Forall2_lookup_lr _ _ _ _ _ _ HF Hj Hs') as (_ & Hget' & _). simpl in Hget'.
      pose proof (seat_get_Found _ _ _ _ Hget') as [Hsin' Hguid'].
      assert (s' = s) as -> by by apply Huniq.
      assert (g' = guid) as ->.
      { destruct (Hstr (py_str k, g')) as [a Ha]; [by eapply list_elem_of_lookup_2|].
        destruct (Hstr (py_str pk, guid)) as [b Hb]; [by eapply list_elem_of_lookup_2|].
        simpl in *. subst. simpl in *. congruence. }
      assert (j = i) as ->.
      { destruct (Hstr (py_str pk, guid)) as [b Hb]; [by eapply list_elem_of_lookup_2|].
        simpl in Hb. subst guid.
        eapply (check_duplicates_distinct _ j i (JStr b) (JStr b) Hdup);
          rewrite ?list_lookup_fmap, ?Hi, ?Hj; try done; apply py_eq_refl_str. }
      rewrite Hi in Hj. injection Hj as Heq. by apply (inj _) in Heq.
    + done.
    + destruct (decide (k = pk)) as [|Hne]; [done|].
      destruct (Hc k p Hp Hseat Hexp). by apply not_excluded_Some.
Qed.
End Holders.

Section Resubmit.
Variable json_loads : string -> option json.
Variables (db : Db) (now : Z) (r : request).

(** X1: after a successful assignment whose guids are strings, every pair of
    the batch names a seat of the event, and in the database the request
    leaves, that seat is held by the position of the pair and by nothing
    else: no pending or paid order, no live voucher and no other unexpired
    cart position has it. *)
Theorem assigned_seat_held_once ep fields items :
  json_loads (body r) = Some (JObj fields) →
  default (JObj []) (dict_lookup fields "seat_assignments") = JObj items →
  NoDup items.*1 →
  string_guids items →
  seat_pk_unique db →
  resp_status (endpoint_post json_loads ep db now r).1 = 200 →
  ∀ pk guid, (py_str pk, guid) ∈ items →
    ∃ seat, seat_get db guid (event r) = Found seat
            ∧ held_by_only (endpoint_post json_loads ep db now r).2 now pk (seat_pk seat).
Proof.
  intros Hd Hsa Hnd Hstr Huniq Hst pk guid Hin.
  destruct (post_success_inv json_loads db now r ep fields items Hd Hsa Hnd Hst)
    as (sta & HF & Hk & Hdup & ->).
  apply list_elem_of_lookup in Hin as [i Hi].
  destruct (Forall2_lookup_l _ _ _ _ _ HF Hi) as ([k s] & Hs & Hks & Hget & _).
  simpl in *. subst k. exists s. split; [done|].
  by eapply committed_held_once.
Qed.

Lemma set_seat_set_seat p a b : set_seat (set_seat p a) b = set_seat p b.
Proof. done. Qed.

Lemma in_callers_cart_set_seat p a : in_callers_cart r (set_seat p a) ↔ in_callers_cart r p.
Proof. done. Qed.

(** X2: sending a successful assignment request a second time succeeds again
    and leaves the database exactly as the first request left it: the seats
    a cart already holds through the positions of the batch do not count as
    taken for these positions. *)
Theorem resubmission_changes_nothing ep fields items :
  json_loads (body r) = Some (JObj fields) →
  default (JObj []) (dict_lookup fields "seat_assignments") = JObj items →
  NoDup items.*1 →
  string_guids items →
  seat_pk_unique db →
  db_cart_positions db !! 0 = None →
  resp_status (endpoint_post json_loads ep db now r).1 = 200 →
  let db' := (endpoint_post json_loads ep db now r).2 in
  endpoint_post json_loads ep db' now r = (success_response ep, db').
Proof.
  intros Hd Hsa Hnd Hstr Huniq Hzero Hst.
  destruct (post_success_inv json_loads db now r ep fields items Hd Hsa Hnd Hst)
    as (sta & HF & Hk & Hdup & ->).
  cbv zeta. cbn [snd]. set (db' := with_cart_positions db (committed db r sta)).
  assert (∀ k, k ∈ items.*1 → is_Some (position_map db' r !! k)) as Hk'.
  { intros k Hin. destruct (Hk k Hin) as [[pk p] Hpm].
    apply position_map_lookup in Hpm as [-> [Hp Hcart]%positions_lookup].
    pose proof (committed_lookup db now r items sta pk HF Hnd Hk) as Hl.
    rewrite Hp in Hl.
    destruct Hl as [(_ & _ & s & _ & _ & _ & Hrow)|[(Hnin & _)|(Hnin & _)]]; try done.
    exists (pk, set_seat p (Some (seat_pk s))).
    apply position_map_lookup. split; [done|]. by apply positions_lookup. }
  assert (Forall2 (accepted db' now r) items sta) as HF'.
  { apply Forall2_same_length_lookup. split; [by eapply Forall2_length|].
    intros i [k guid] [k' s] Hi Hs.
    destruct (Forall2_lookup_lr _ _ _ _ _ _ HF Hi Hs) as (Hkk & Hget & id & Hid & Htaken).
    simpl in *. subst k'. split; [done|]. split; [done|]. exists id. split; [done|].
    destruct (Hk k) as [[pk p] Hpm].
    { apply list_elem_of_fmap. exists (k, guid). split; [done|].
      by eapply list_elem_of_lookup_2. }
    apply position_map_lookup in Hpm as [-> [Hp Hcart]%positions_lookup].
    rewrite py_int_str in Hid. injection Hid as <-.
    destruct (committed_held_once db now r items sta i pk guid s HF Hnd Hk Hdup
                Hstr Huniq Hi Hs) as (_ & Ho & Hv & Hc).
    destruct (is_seat_taken db' now s (Some pk)) eqn:E; [|done].
    apply is_seat_taken_iff in E as [?|[(k & q & Hq & Hseat & Hexp & Hex)|?]]; try done.
    assert (k = pk) as -> by by eapply Hc.
    destruct (Hex pk eq_refl); [|done]. intros ->. congruence. }
  rewrite endpoint_post_unfold.
  assert (validate db' now r (JObj fields) = Continue sta) as Hv.
  { apply (validate_intro db' now r fields items); try done.
    by apply (resolve_seats_intro db' now r items [] sta). }
  rewrite (post_Continue json_loads db' now r _ _ sta Hd Hv). f_equal.
  assert (committed db' r sta = committed db r sta) as Heq.
  { apply map_eq. intros pk.
    pose proof (committed_lookup db now r items sta pk HF Hnd Hk) as Hl.
    pose proof (committed_lookup db' now r items sta pk HF' Hnd Hk') as Hl'.
    simpl in Hl'. fold (committed db r sta) in Hl'.
    destruct (db_cart_positions db !! pk) as [p|] eqn:Hp.
    - destruct Hl as [(i & g & s & Hi & Hs & Hcart & Hrow)|[(Hnin & Hcart & Hrow)|(Hnin & Hcart & Hrow)]];
        rewrite Hrow in Hl' |- *.
      + destruct Hl' as [(i' & g' & s' & Hi' & Hs' & _ & Hrow')|[(Hnin & _)|(Hnin & _)]].
        * assert (i' = i) as ->.
          { eapply NoDup_lookup; [exact Hnd|..]; by rewrite list_lookup_fmap, ?Hi, ?Hi'. }
          assert (s' = s) as -> by congruence. by rewrite Hrow'.
        * destruct Hnin. apply list_elem_of_fmap. exists (py_str pk, g).
          split; [done|]. by eapply list_elem_of_lookup_2.
        * destruct Hnin. apply list_elem_of_fmap. exists (py_str pk, g).
          split; [done|]. by eapply list_elem_of_lookup_2.
      + destruct Hl' as [(i' & g' & s' & Hi' & _)|[(_ & _ & Hrow')|(_ & Hn & _)]].
        * destruct Hnin. apply list_elem_of_fmap. exists (py_str pk, g').
          split; [done|]. by eapply list_elem_of_lookup_2.
        * by rewrite Hrow'.
        * done.
      + destruct Hl' as [(i' & g' & s' & Hi' & _)|[(_ & Hn & _)|(_ & _ & Hrow')]].
        * destruct Hnin. apply list_elem_of_fmap. exists (py_str pk, g').
          split; [done|]. by eapply list_elem_of_lookup_2.
        * done.
        * by rewrite Hrow'.
    - rewrite Hl in Hl' |- *. done. }
  fold (committed db' r sta). rewrite Heq. done.
Qed.
End Resubmit.

Lemma sample_db_seat_pk_unique : seat_pk_unique sample_db.
Proof.
  intros s s' Hs Hs' Hpk. simpl in Hs, Hs'.
  apply elem_of_cons in Hs as [->|Hs]; [|apply list_elem_of_singleton in Hs as ->];
    (apply elem_of_cons in Hs' as [->|Hs']; [|apply list_elem_of_singleton in Hs' as ->]);
    first [reflexivity | discriminate Hpk].
Qed.

(** [assigned_seat_held_once] at the request [{"seat_assignments": {"2": "S2"}}]
    of cart A. *)
Lemma assigned_seat_held_once_witness :
  let r := sample_request text_assign_2_S2 in
  let fields := [("seat_assignments", JObj [("2", JStr "S2")])] in
  let items := [("2", JStr "S2")] in
  (sample_loads (body r) = Some (JObj fields)
   ∧ default (JObj []) (dict_lookup fields "seat_assignments") = JObj items
   ∧ NoDup items.*1
   ∧ string_guids items
   ∧ seat_pk_unique sample_db
   ∧ resp_status (endpoint_post sample_loads select_seats sample_db 50 r).1 = 200)
  ∧ ∀ pk guid, (py_str pk, guid) ∈ items →
      ∃ seat, seat_get sample_db guid (event r) = Found seat
        ∧ held_by_only (endpoint_post sample_loads select_seats sample_db 50 r).2
            50 pk (seat_pk seat).
Proof.
  intros r fields items.
  assert (NoDup items.*1) as Hnd by (apply NoDup_singleton).
  assert (string_guids items) as Hstr
    by (apply Forall_cons; split; [by exists "S2"|apply Forall_nil_2]).
  split.
  - split; [reflexivity|]. split; [reflexivity|]. split; [exact Hnd|].
    split; [exact Hstr|]. split; [exact sample_db_seat_pk_unique|].
    vm_compute; reflexivity.
  - apply (assigned_seat_held_once sample_loads sample_db 50 r select_seats fields items);
      [reflexivity | reflexivity | exact Hnd | exact Hstr
      | exact sample_db_seat_pk_unique | vm_compute; reflexivity].
Defined.

(** [resubmission_changes_nothing] at the request
    [{"seat_assignments": {"2": "S2"}}] of cart A. *)
Lemma resubmission_changes_nothing_witness :
  let r := sample_request text_assign_2_S2 in
  let fields := [("seat_assignments", JObj [("2", JStr "S2")])] in
  let items := [("2", JStr "S2")] in
  (sample_loads (body r) = Some (JObj fields)
   ∧ default (JObj []) (dict_lookup fields "seat_assignments") = JObj items
   ∧ NoDup items.*1
   ∧ string_guids items
   ∧ seat_pk_unique sample_db
   ∧ db_cart_positions sample_db !! 0 = None
   ∧ resp_status (endpoint_post sample_loads select_seats sample_db 50 r).1 = 200)
  ∧ let db' := (endpoint_post sample_loads select_seats sample_db 50 r).2 in
    endpoint_post sample_loads select_seats db' 50 r = (success_response select_seats, db').
Proof.
  intros r fields items.
  assert (NoDup items.*1) as Hnd by (apply NoDup_singleton).
  assert (string_guids items) as Hstr
    by (apply Forall_cons; split; [by exists "S2"|apply Forall_nil_2]).
  split.
  - split; [reflexivity|]. split; [reflexivity|]. split; [exact Hnd|].
    split; [exact Hstr|]. split; [exact sample_db_seat_pk_unique|].
    split; [reflexivity|]. vm_compute; reflexivity.
  - apply (resubmission_changes_nothing sample_loads sample_db 50 r select_seats fields items);
      [reflexivity | reflexivity | exact Hnd | exact Hstr
      | exact sample_db_seat_pk_unique | reflexivity | vm_compute; reflexivity].
Defined.

(** ** The checkout step after an assignment *)

Section StepAfterPost.
Variable json_loads : string -> option json.
Variables (db : Db) (now : Z) (r : request).

(** X4: when a successful assignment names every admission position of the
    caller's cart, the checkout step is completed afterwards: for every list
    of rows of that cart, [is_completed] holds, [post] redirects to the next
    step, and the step is not applicable. *)
Theorem step_completed_after_full_assignment ep fields items c :
  json_loads (body r) = Some (JObj fields) →
  default (JObj []) (dict_lookup fields "seat_assignments") = JObj items →
  NoDup items.*1 →
  resp_status (endpoint_post json_loads ep db now r).1 = 200 →
  (∀ k, is_Some (position_map db r !! k) → k ∈ items.*1) →
  (∀ p, p ∈ c → ∃ pk,
     db_cart_positions (endpoint_post json_loads ep db now r).2 !! pk = Some p
     ∧ cp_cart_id p = cart_id r ∧ cp_event p = event r) →
  SeatSelectionStepFlow.is_completed (Some c) = true
  ∧ SeatSelectionStepFlow.post (Some c) = SeatSelectionStepFlow.next_url
  ∧ ∀ seating_choice seating_plan,
      SeatSelectionStepFlow.is_applicable (Some c) seating_choice seating_plan = false.
Proof.
  intros Hd Hsa Hnd Hst Hall Hc.
  destruct (post_success_inv json_loads db now r ep fields items Hd Hsa Hnd Hst)
    as (sta & HF & Hk & Hdup & Heq).
  rewrite Heq in Hc. simpl in Hc.
  assert (SeatSelectionStepFlow.is_completed (Some c) = true) as Hdone.
  { unfold SeatSelectionStepFlow.is_completed, SeatSelectionStepFlow.needs_seat.
    apply negb_true_iff. apply not_true_is_false. intros Hex.
    apply existsb_exists in Hex as (p & Hin%list_elem_of_In & Hp).
    apply andb_true_iff in Hp as [Hadm Hseat].
    apply negb_true_iff, bool_decide_eq_false in Hseat.
    destruct (Hc p Hin) as (pk & Hl & Hcart & Hev).
    pose proof (committed_lookup db now r items sta pk HF Hnd Hk) as Hrow.
    destruct (db_cart_positions db !! pk) as [p0|] eqn:Hp0; [|congruence].
    destruct Hrow as [(i & g & s & _ & _ & _ & Hrow)|[(Hnin & Hin0 & _)|(_ & Hnot & Hrow)]].
    - rewrite Hrow in Hl. injection Hl as <-. apply Hseat. by eexists.
    - apply Hnin, Hall. exists (pk, p0). apply position_map_lookup. split; [done|].
      by apply positions_lookup.
    - rewrite Hrow in Hl. injection Hl as <-. by apply Hnot. }
  split; [done|]. split; [unfold SeatSelectionStepFlow.post; by rewrite Hdone|].
  intros seating_choice seating_plan. unfold SeatSelectionStepFlow.is_applicable.
  unfold SeatSelectionStepFlow.is_completed in Hdone.
  apply negb_true_iff in Hdone. rewrite Hdone. apply andb_false_r.
Qed.

(** X5: when a successful assignment leaves out an admission position of the
    caller's cart, that position has no seat afterwards, whatever it had
    before, so the checkout step is not completed, [post] leads back to the
    step with its error message, and with seating enabled the step is
    applicable again. *)
Theorem step_incomplete_after_partial_assignment ep fields items c pk p0 p :
  json_loads (body r) = Some (JObj fields) →
  default (JObj []) (dict_lookup fields "seat_assignments") = JObj items →
  NoDup items.*1 →
  resp_status (endpoint_post json_loads ep db now r).1 = 200 →
  db_cart_positions db !! pk = Some p0 →
  in_callers_cart r p0 →
  py_str pk ∉ items.*1 →
  db_cart_positions (endpoint_post json_loads ep db now r).2 !! pk = Some p →
  p ∈ c →
  SeatSelectionStepFlow.is_completed (Some c) = false
  ∧ (∃ message,
       SeatSelectionStepFlow.post (Some c) = SeatSelectionStepFlow.step_url message)
  ∧ ∀ seating_plan,
      SeatSelectionStepFlow.is_applicable (Some c) true (Some seating_plan) = true.
Proof.
  intros Hd Hsa Hnd Hst Hp0 Hcart Hnin Hp Hin.
  destruct (post_success_inv json_loads db now r ep fields items Hd Hsa Hnd Hst)
    as (sta & HF & Hk & Hdup & Heq).
  rewrite Heq in Hp. simpl in Hp.
  pose proof (committed_lookup db now r items sta pk HF Hnd Hk) as Hrow.
  rewrite Hp0 in Hrow.
  assert (p = set_seat p0 None) as ->.
  { destruct Hrow as [(i & g & s & Hi & _)|[(_ & _ & Hrow)|(_ & Hnot & _)]];
      [|congruence|done].
    destruct Hnin. apply list_elem_of_fmap. exists (py_str pk, g).
    split; [done|]. by eapply list_elem_of_lookup_2. }
  assert (SeatSelectionStepFlow.is_completed (Some c) = false) as Hdone.
  { unfold SeatSelectionStepFlow.is_completed, SeatSelectionStepFlow.needs_seat.
    apply negb_false_iff, existsb_exists. exists (set_seat p0 None).
    split; [by apply list_elem_of_In|].
    destruct Hcart as (_ & _ & Hadm). simpl. by rewrite Hadm. }
  split; [done|]. split; [unfold SeatSelectionStepFlow.post; rewrite Hdone; eauto|].
  intros seating_plan. unfold SeatSelectionStepFlow.is_applicable.
  unfold SeatSelectionStepFlow.is_completed in Hdone.
  apply negb_false_iff in Hdone. by rewrite Hdone.
Qed.
End StepAfterPost.

(** [step_completed_after_full_assignment] at cart A of [small_db], whose
    only admission position is 2. *)
Lemma step_completed_after_full_assignment_witness :
  let r := sample_request text_assign_2_S2 in
  let fields := [("seat_assignments", JObj [("2", JStr "S2")])] in
  let items := [("2", JStr "S2")] in
  let c := [sample_position "A" (Some 11)] in
  (sample_loads (body r) = Some (JObj fields)
   ∧ default (JObj []) (dict_lookup fields "seat_assignments") = JObj items
   ∧ NoDup items.*1
   ∧ resp_status (endpoint_post sample_loads select_seats small_db 50 r).1 = 200
   ∧ (∀ k, is_Some (position_map small_db r !! k) → k ∈ items.*1)
   ∧ (∀ p, p ∈ c → ∃ pk,
        db_cart_positions (endpoint_post sample_loads select_seats small_db 50 r).2 !! pk
        = Some p
        ∧ cp_cart_id p = cart_id r ∧ cp_event p = event r))
  ∧ SeatSelectionStepFlow.is_completed (Some c) = true
  ∧ SeatSelectionStepFlow.post (Some c) = SeatSelectionStepFlow.next_url
  ∧ ∀ seating_choice seating_plan,
      SeatSelectionStepFlow.is_applicable (Some c) seating_choice seating_plan = false.
Proof.
  intros r fields items c.
  assert (NoDup items.*1) as Hnd by (apply NoDup_singleton).
  assert (∀ k, is_Some (position_map small_db r !! k) → k ∈ items.*1) as Hall.
  { intros k [[pk p] Hk]. apply position_map_lookup in Hk as [-> Hk].
    apply positions_lookup in Hk as [Hk (Hcart & _)]. simpl in Hk.
    apply lookup_insert_Some in Hk as [[<- _]|[_ Hk]]; [by left|].
    apply lookup_singleton_Some in Hk as [_ <-]. discriminate Hcart. }
  assert (∀ p, p ∈ c → ∃ pk,
        db_cart_positions (endpoint_post sample_loads select_seats small_db 50 r).2 !! pk
        = Some p
        ∧ cp_cart_id p = cart_id r ∧ cp_event p = event r) as Hc.
  { intros p ->%list_elem_of_singleton. exists 2. by vm_compute. }
  split.
  - split; [reflexivity|]. split; [reflexivity|]. split; [exact Hnd|].
    split; [vm_compute; reflexivity|]. split; [exact Hall|exact Hc].
  - apply (step_completed_after_full_assignment sample_loads small_db 50 r select_seats
             fields items c);
      [reflexivity | reflexivity | exact Hnd | vm_compute; reflexivity | exact Hall | exact Hc].
Defined.

(** [step_incomplete_after_partial_assignment] at cart A of [sample_db]:
    position 1 held S1 and is not in the batch. *)
Lemma step_incomplete_after_partial_assignment_witness :
  let r := sample_request text_assign_2_S2 in
  let fields := [("seat_assignments", JObj [("2", JStr "S2")])] in
  let items := [("2", JStr "S2")] in
  let c := [sample_position "A" None; sample_position "A" (Some 11)] in
  (sample_loads (body r) = Some (JObj fields)
   ∧ default (JObj []) (dict_lookup fields "seat_assignments") = JObj items
   ∧ NoDup items.*1
   ∧ resp_status (endpoint_post sample_loads select_seats sample_db 50 r).1 = 200
   ∧ db_cart_positions sample_db !! 1 = Some (sample_position "A" (Some 10))
   ∧ in_callers_cart r (sample_position "A" (Some 10))
   ∧ (py_str 1 ∉ items.*1)
   ∧ db_cart_positions (endpoint_post sample_loads select_seats sample_db 50 r).2 !! 1
     = Some (sample_position "A" None)
   ∧ sample_position "A" None ∈ c)
  ∧ SeatSelectionStepFlow.is_completed (Some c) = false
  ∧ (∃ message,
       SeatSelectionStepFlow.post (Some c) = SeatSelectionStepFlow.step_url message)
  ∧ ∀ seating_plan,
      SeatSelectionStepFlow.is_applicable (Some c) true (Some seating_plan) = true.
Proof.
  intros r fields items c.
  assert (NoDup items.*1) as Hnd by (apply NoDup_singleton).
  assert (py_str 1 ∉ items.*1) as Hnin.
  { intros Hin%list_elem_of_singleton. discriminate Hin. }
  assert (sample_position "A" None ∈ c) as Hin by (by left).
  split.
  - split; [reflexivity|]. split; [reflexivity|]. split; [exact Hnd|].
    split; [vm_compute; reflexivity|]. split; [reflexivity|].
    split; [by repeat split|]. split; [exact Hnin|].
    split; [vm_compute; reflexivity|exact Hin].
  - apply (step_incomplete_after_partial_assignment sample_loads sample_db 50 r select_seats
             fields items c 1 (sample_position "A" (Some 10)) (sample_position "A" None));
      [reflexivity | reflexivity | exact Hnd | vm_compute; reflexivity | reflexivity
      | by repeat split | exact Hnin | vm_compute; reflexivity | exact Hin].
Defined.

(** ** The mapping form *)

Lemma filter_all {A} (P : A → Prop) `{∀ x, Decision (P x)} (l : list A) :
  Forall P l → filter P l = l.
Proof.
  induction 1 as [|x l Hx _ IH]; [done|]. by rewrite filter_cons_True, IH.
Qed.

Lemma filter_none {A} (P : A → Prop) `{∀ x, Decision (P x)} (l : list A) :
  Forall (fun x => ¬ P x) l → filter P l = [].
Proof.
  induction 1 as [|x l Hx _ IH]; [done|]. by rewrite filter_cons_False.
Qed.

Section EventMappingProps.
Import EventMapping.
Variables (items : gmap Z Item) (event : Z) (cleaned_data : gmap string string).

Lemma field_name_inj a b : field_name a = field_name b → a = b.
Proof. unfold field_name. intros H. by simplify_eq/=. Qed.

Lemma create_mappings_omap cats table table' :
  create_mappings items event cleaned_data cats table = Some table' →
  table' = table ++ omap (chosen_mapping event cleaned_data) cats
  ∧ Forall (fun m => is_Some (items !! m_product m))
           (omap (chosen_mapping event cleaned_data) cats).
Proof.
  revert table. induction cats as [|cat cats IH]; intros table; simpl.
  - intros [= <-]. by rewrite app_nil_r.
  - unfold create_mapping, chosen_mapping.
    destruct (cleaned_data !! field_name cat) as [v|]; [|done].
    destruct (String.eqb v ""); [apply IH|].
    destruct (py_int v) as [id|]; [|done].
    destruct (items !! id) as [it|] eqn:Hit; [|done].
    intros [-> HF]%IH. rewrite <- app_assoc. split; [done|].
    apply Forall_cons. split; [|done]. simpl. by rewrite Hit.
Qed.

Lemma chosen_mapping_fields cat m :
  chosen_mapping event cleaned_data cat = Some m →
  m_event m = event ∧ m_subevent m = None ∧ m_layout_category m = cat.
Proof.
  unfold chosen_mapping. intros H.
  destruct (cleaned_data !! field_name cat) as [v|]; [|done].
  destruct (String.eqb v ""); [done|].
  destruct (py_int v); [|done]. by injection H as <-.
Qed.

Lemma form_valid_inv cats table table' :
  form_valid items event cats cleaned_data table = Some table' →
  ∃ new, table' = filter (fun m => m_event m ≠ event) table ++ new
         ∧ Forall (fun m => m_event m = event ∧ m_subevent m = None
                            ∧ is_Some (items !! m_product m)) new
         ∧ ∀ l, cats = Some l → new = omap (chosen_mapping event cleaned_data) l.
Proof.
  unfold form_valid. destruct cats as [l|].
  - intros [-> HF]%create_mappings_omap. eexists. split; [done|]. split; [|by intros ? [= <-]].
    apply Forall_forall. intros m Hm.
    rewrite Forall_forall in HF. split_and!; [..|by apply HF].
    all: apply list_elem_of_omap in Hm as (c & _ & Hc);
      by apply chosen_mapping_fields in Hc as (? & ? & ?).
  - intros [= <-]. exists []. rewrite app_nil_r. split; [done|]. split; [done|]. done.
Qed.

Lemma filter_event_after cats table table' :
  form_valid items event cats cleaned_data table = Some table' →
  Forall (fun m => m_subevent m = None) (filter (fun m => m_event m = event) table').
Proof.
  intros (new & -> & HF & _)%form_valid_inv.
  apply Forall_forall. intros m [He Hin]%list_elem_of_filter.
  apply elem_of_app in Hin as [[Hne _]%list_elem_of_filter|Hin]; [done|].
  rewrite Forall_forall in HF. by apply HF.
Qed.

(** X6: when the mapping form is saved, the mappings of other events are
    kept as they are, every mapping of the event is a general one (no
    subevent) to an existing product, and the data endpoint, for every
    subevent or none, resolves the categories exactly as the checkout page
    does. *)
Theorem saved_mappings_are_general cats table table' :
  form_valid items event cats cleaned_data table = Some table' →
  filter (fun m => m_event m ≠ event) table' = filter (fun m => m_event m ≠ event) table
  ∧ (∀ m, m ∈ table' → m_event m = event →
       m_subevent m = None ∧ is_Some (items !! m_product m))
  ∧ ∀ subevent,
      SeatmapDataAPIView.category_mappings table' event subevent
      = CheckoutSeatSelectionView.product_mappings table' event.
Proof.
  intros Hv. pose proof (filter_event_after _ _ _ Hv) as Hgen.
  destruct (form_valid_inv _ _ _ Hv) as (new & Heq & HF & _).
  rewrite Forall_forall in HF. split; [|split].
  - rewrite Heq, filter_app.
    rewrite (filter_all _ (filter _ table))
      by (apply Forall_forall; by intros m [? _]%list_elem_of_filter).
    rewrite (filter_none _ new); [by rewrite app_nil_r|].
    apply Forall_forall. intros m Hm Hne. by destruct (HF m Hm).
  - intros m Hin He. subst table'.
    apply elem_of_app in Hin as [[Hne _]%list_elem_of_filter|Hin]; [done|].
    by destruct (HF m Hin) as (_ & ? & ?).
  - intros subevent.
    unfold SeatmapDataAPIView.category_mappings, SeatmapDataAPIView.q_mappings,
      CheckoutSeatSelectionView.product_mappings.
    destruct subevent as [se|].
    + rewrite (order_two_keys (subevent_id se)); last first.
      { apply Forall_forall. intros x Hx%list_elem_of_filter. by destruct Hx. }
      set (q := filter (fun m => m_event m = event) table') in *.
      rewrite (filter_all (fun m => _ ∨ _) q)
        by (eapply Forall_impl; [exact Hgen|]; naive_solver).
      rewrite (filter_none (fun m => m_subevent m = Some _) q)
        by (eapply Forall_impl; [exact Hgen|]; intros m Hm; congruence).
      rewrite app_nil_r. f_equal. by apply filter_all.
    + f_equal. by apply filter_all.
Qed.
End EventMappingProps.

Lemma omap_cons' {A B} (f : A → option B) x l :
  omap f (x :: l) = match f x with Some y => y :: omap f l | None => omap f l end.
Proof. done. Qed.

Section EventMappingRoundTrip.
Import EventMapping.
Variables (items : gmap Z Item) (event : Z) (cleaned_data : gmap string string).

Lemma get_initial_lookup table cats (acc : gmap string Z) cat :
  foldl (fun initial c =>
           match first_mapping table event c with
           | Some m => <[field_name c := m_product m]> initial
           | None => initial
           end) acc cats !! field_name cat
  = match first_mapping table event cat with
    | Some m => if decide (cat ∈ cats) then Some (m_product m) else acc !! field_name cat
    | None => acc !! field_name cat
    end.
Proof.
  revert acc. induction cats as [|c cats IH]; intros acc; simpl.
  - by destruct (first_mapping table event cat).
  - rewrite IH. destruct (first_mapping table event cat) as [m|] eqn:Hm.
    + destruct (decide (cat ∈ cats)) as [Hin|Hnin].
      * rewrite decide_True by by right. done.
      * destruct (decide (c = cat)) as [->|Hne].
        -- rewrite decide_True by by left. by rewrite Hm, lookup_insert_eq.
        -- rewrite decide_False by (intros [?|?]%elem_of_cons; congruence).
           destruct (first_mapping table event c); [|done].
           rewrite lookup_insert_ne; [done|]. by intros ?%field_name_inj.
    + destruct (decide (c = cat)) as [->|Hne]; [by rewrite Hm|].
      destruct (first_mapping table event c); [|done].
      rewrite lookup_insert_ne; [done|]. by intros ?%field_name_inj.
Qed.

Lemma first_chosen cats cat :
  head (filter (fun m => m_event m = event ∧ m_layout_category m = cat)
               (omap (chosen_mapping event cleaned_data) cats))
  = if decide (cat ∈ cats) then chosen_mapping event cleaned_data cat else None.
Proof.
  induction cats as [|c cats IH]; [done|].
  rewrite omap_cons'.
  destruct (chosen_mapping event cleaned_data c) as [m|] eqn:Hc.
  - destruct (chosen_mapping_fields _ _ _ _ Hc) as (He & _ & Hcat).
    destruct (decide (c = cat)) as [->|Hne].
    + rewrite filter_cons_True by done. rewrite decide_True by by left. by rewrite Hc.
    + rewrite filter_cons_False by (intros [_ ?]; congruence). rewrite IH.
      destruct (decide (cat ∈ cats)).
      * by rewrite decide_True by by right.
      * by rewrite decide_False by (intros [?|?]%elem_of_cons; congruence).
  - rewrite IH. destruct (decide (c = cat)) as [->|Hne].
    + rewrite (decide_True (P := cat ∈ cat :: cats)) by by left.
      rewrite Hc. by destruct (decide (cat ∈ cats)).
    + destruct (decide (cat ∈ cats)).
      * by rewrite decide_True by by right.
      * by rewrite decide_False by (intros [?|?]%elem_of_cons; congruence).
Qed.

(** X7: the mapping form shows again what was saved: after [form_valid],
    [get_initial] gives, for every category of the plan, the product that
    was chosen for it, and no entry for the empty choice. *)
Theorem saved_mapping_is_shown_again cats table table' cat v :
  form_valid items event (Some cats) cleaned_data table = Some table' →
  cat ∈ cats →
  cleaned_data !! field_name cat = Some v →
  get_initial table' event (Some cats) !! field_name cat
  = if String.eqb v "" then None
    else match py_int v with Ok id => Some id | Raise _ => None end.
Proof.
  intros Hv Hin Hcd.
  destruct (form_valid_inv _ _ _ _ _ _ Hv) as (new & -> & _ & Hnew).
  rewrite (Hnew cats eq_refl). unfold get_initial.
  rewrite get_initial_lookup, lookup_empty. unfold first_mapping.
  rewrite filter_app. rewrite (filter_none _ (filter _ table)); last first.
  { apply Forall_forall. intros m [Hne _]%list_elem_of_filter [He _]. done. }
  rewrite app_nil_l, first_chosen. rewrite !decide_True by done.
  unfold chosen_mapping. rewrite Hcd.
  destruct (String.eqb v ""); [done|].
  destruct (py_int v); [|done]. by rewrite decide_True.
Qed.
End EventMappingRoundTrip.

(** [saved_mappings_are_general] at the mappings of scenario A, with a
    mapping of event 2 in front. *)
Lemma saved_mappings_are_general_witness :
  let table' :=
    [ {| m_event := 2; m_subevent := Some 7; m_layout_category := "VIP"; m_product := 9 |};
      {| m_event := 1; m_subevent := None; m_layout_category := "VIP"; m_product := 2 |} ] in
  let table :=
    {| m_event := 2; m_subevent := Some 7; m_layout_category := "VIP"; m_product := 9 |}
    :: scenario_mappings in
  EventMapping.form_valid sample_items 1 (Some ["VIP"; "Standard"]) sample_cleaned_data table
  = Some table'
  ∧ filter (fun m => m_event m ≠ 1) table' = filter (fun m => m_event m ≠ 1) table
  ∧ (∀ m, m ∈ table' → m_event m = 1 →
       m_subevent m = None ∧ is_Some (sample_items !! m_product m))
  ∧ ∀ subevent,
      SeatmapDataAPIView.category_mappings table' 1 subevent
      = CheckoutSeatSelectionView.product_mappings table' 1.
Proof.
  intros table' table.
  assert (EventMapping.form_valid sample_items 1 (Some ["VIP"; "Standard"])
            sample_cleaned_data table = Some table') as Hv by (vm_compute; reflexivity).
  split; [exact Hv|].
  exact (saved_mappings_are_general sample_items 1 sample_cleaned_data
           (Some ["VIP"; "Standard"]) table table' Hv).
Defined.

(** [saved_mapping_is_shown_again] at the mappings of scenario A and the
    category VIP. *)
Lemma saved_mapping_is_shown_again_witness :
  let table' :=
    [ {| m_event := 1; m_subevent := None; m_layout_category := "VIP"; m_product := 2 |} ] in
  (EventMapping.form_valid sample_items 1 (Some ["VIP"; "Standard"]) sample_cleaned_data
     scenario_mappings = Some table'
   ∧ "VIP" ∈ ["VIP"; "Standard"]
   ∧ sample_cleaned_data !! EventMapping.field_name "VIP" = Some "2")
  ∧ EventMapping.get_initial table' 1 (Some ["VIP"; "Standard"])
      !! EventMapping.field_name "VIP"
    = if String.eqb "2" "" then None
      else match py_int "2" with Ok id => Some id | Raise _ => None end.
Proof.
  intros table'.
  assert (EventMapping.form_valid sample_items 1 (Some ["VIP"; "Standard"])
            sample_cleaned_data scenario_mappings = Some table') as Hv
    by (vm_compute; reflexivity).
  assert ("VIP" ∈ ["VIP"; "Standard"]) as Hin by (by left).
  split.
  - split; [exact Hv|]. split; [exact Hin|]. vm_compute; reflexivity.
  - apply (saved_mapping_is_shown_again sample_items 1 sample_cleaned_data
             ["VIP"; "Standard"] scenario_mappings table' "VIP" "2" Hv Hin).
    vm_compute; reflexivity.
Defined.

(** ** The assignment form *)















Section EventAssignProps.
Import EventAssign.









End EventAssignProps.




(** ** The two seat lists *)

Lemma py_dict_set_hashable d k v :
  hashable_values d → py_hashable v = true → hashable_values (py_dict_set d k v).
Proof.
  unfold hashable_values. induction 1 as [|[k' v'] d Hv' Hd IH]; intros Hv; simpl.
  - by apply Forall_singleton.
  - destruct (py_eq k' k); apply Forall_cons; split; try done. by apply IH.
Qed.

Lemma py_dict_get_hashable d k :
  hashable_values d → py_hashable (default JNull (py_dict_get d k)) = true.
Proof.
  unfold hashable_values. induction 1 as [|[k' v'] d Hv' Hd IH]; simpl; [done|].
  by destruct (py_eq k' k).
Qed.

Lemma foldl_hashable {A} (f : pydict → A → pydict) (l : list A) d :
  (∀ d x, hashable_values d → hashable_values (f d x)) →
  hashable_values d → hashable_values (foldl f d l).
Proof.
  intros Hf. revert d. induction l as [|x l IH]; intros d Hd; simpl; [done|].
  by apply IH, Hf.
Qed.

Lemma spec_entry_hashable fallback d s :
  hashable_values d → hashable_values (spec_entry fallback d s).
Proof.
  intros Hd. unfold spec_entry. destruct (String.eqb (sn_guid s) ""); [done|].
  destruct (present (sn_category s)), (present fallback);
    try done; by apply py_dict_set_hashable.
Qed.

Lemma own_entry_hashable d s : hashable_values d → hashable_values (own_entry d s).
Proof.
  intros Hd. unfold own_entry. apply py_dict_set_hashable; [done|].
  by destruct (sn_category s).
Qed.

Lemma foldM_collect {A B} (f : A → result B) (P : A → B → Prop) (l : list A) acc :
  (∀ s, s ∈ l → ∃ x, f s = Ok x ∧ P s x) →
  ∃ l', foldM (fun acc s => x ← f s; Ok (acc ++ [x])) l acc = Ok (acc ++ l')
        ∧ Forall2 P l l'.
Proof.
  revert acc. induction l as [|s l IH]; intros acc Hf; simpl.
  - exists []. by rewrite app_nil_r.
  - destruct (Hf s) as (x & Hx & HP); [by left|]. rewrite Hx. simpl.
    destruct (IH (acc ++ [x])) as (l' & -> & HF); [intros s' Hs'; apply Hf; by right|].
    exists (x :: l'). rewrite <- app_assoc. split; [done|]. by apply Forall2_cons.
Qed.

Section DataEndpoint.
Import SeatmapDataAPIView.


End DataEndpoint.

Section CheckoutPage.
Import CheckoutSeatSelectionView.

Lemma page_seat_data_hashable e d seat :
  hashable_values d →
  ∃ x, seat_data (product_mappings (mappings e) (event_id e)) d
                 (cart_seats (cart e)) seat = Ok x
       ∧ page_entry_of e d seat x.
Proof.
  intros Hd. unfold seat_data, page_entry_of.
  pose proof (py_dict_get_hashable d (JStr (a_seat_guid seat)) Hd) as Hh.
  set (pm := product_mappings _ _).
  destruct (py_dict_get d (JStr (a_seat_guid seat))) as [name|]; simpl in Hh |- *.
  - destruct name as [|b|n|c| |]; try done; simpl;
      (eexists; split; [done|]); simpl; (split; [done|]); (split; [done|]);
      unfold seat_status; simpl;
      destruct (held seat _), (a_blocked seat); simpl; try naive_solver;
      case_bool_decide; simpl; naive_solver.
  - eexists. split; [done|]. simpl. split; [done|]. split; [done|].
    unfold seat_status. simpl.
    destruct (held seat _), (a_blocked seat); simpl; naive_solver.
Qed.

(** X12: when the dictionaries of the checkout page can be built from a
    non-empty layout and the category names are hashable, the page gets one
    entry per seat, in the order of the seats, each as [page_entry_of] says:
    never [selected], and [available] only for a seat that is not blocked,
    not held and mapped to a product. *)
Theorem checkout_page_lists_every_seat json_loads e data d colors :
  layout_data json_loads (seating_choice e) (seating_plan e) = data →
  truthy data = true →
  guid_to_category_name data = Ok d →
  category_name_to_color data = Ok colors →
  hashable_values d →
  ∃ l, get_context_data json_loads e = Ok (l, data)
       ∧ Forall2 (page_entry_of e d) (seats e) l.
Proof.
  intros Hdata Htruthy Hnames Hcolors Hd. unfold get_context_data.
  rewrite Hdata, Htruthy, Hnames, Hcolors. cbn [mbind result_bind].
  destruct (foldM_collect
              (seat_data (product_mappings (mappings e) (event_id e)) d
                 (cart_seats (cart e)))
              (page_entry_of e d) (seats e) []) as (l & Hl & HF).
  { intros seat _. by apply page_seat_data_hashable. }
  rewrite Hl. simpl. by exists l.
Qed.
End CheckoutPage.


(** [checkout_page_lists_every_seat] at [page_env] with the sample layout. *)
Lemma checkout_page_lists_every_seat_witness :
  let e := page_env text_layout in
  let d := [(JStr "S1", JStr "VIP")] in
  let colors := [(JStr "VIP", JStr "#ff0000")] in
  (CheckoutSeatSelectionView.layout_data sample_loads
     (CheckoutSeatSelectionView.seating_choice e)
     (CheckoutSeatSelectionView.seating_plan e) = sample_layout
   ∧ truthy sample_layout = true
   ∧ CheckoutSeatSelectionView.guid_to_category_name sample_layout = Ok d
   ∧ CheckoutSeatSelectionView.category_name_to_color sample_layout = Ok colors
   ∧ hashable_values d)
  ∧ ∃ l, CheckoutSeatSelectionView.get_context_data sample_loads e = Ok (l, sample_layout)
         ∧ Forall2 (page_entry_of e d) (CheckoutSeatSelectionView.seats e) l.
Proof.
  intros e d colors.
  assert (hashable_values d) as Hd by (by apply Forall_singleton).
  split.
  - split; [vm_compute; reflexivity|]. split; [reflexivity|].
    split; [vm_compute; reflexivity|]. split; [vm_compute; reflexivity|exact Hd].
  - apply (checkout_page_lists_every_seat sample_loads e sample_layout d colors);
      [vm_compute; reflexivity | reflexivity | vm_compute; reflexivity
      | vm_compute; reflexivity | exact Hd].
Defined.

